(** * ElasticNodeBitstreamFlasher: packet framing, handshake and chunked upload

    A shallow embedding of [bit_stream_flasher.py].  Python integers are
    [Z], [bytes]/[bytearray] values are lists of [Byte.byte], exceptions
    are an explicit error type, and the serial port is a record holding
    the chunks written so far and the reply bytes still unread. *)

From Stdlib Require Import ZArith List Lia Bool.
From Stdlib Require Import Strings.Byte.
From Stdlib Require Import Floats.SpecFloat.
From Stdlib Require Import Sorting.Permutation.
Import ListNotations.
Local Open Scope Z_scope.

(** ** Python values and builtins used by the source *)

Definition bytes := list byte.

Inductive exn : Set :=
| ValueError
| OverflowError
| ZeroDivisionError
| PermissionError.

Inductive result (A : Type) : Type :=
| Ok (a : A)
| Raise (e : exn).
Arguments Ok {A} a.
Arguments Raise {A} e.

Definition rbind {A B} (r : result A) (k : A -> result B) : result B :=
  match r with
  | Ok a => k a
  | Raise e => Raise e
  end.

Declare Scope result_scope.
Delimit Scope result_scope with result.
Notation "x <- e ;; k" := (rbind e (fun x => k))
  (at level 61, e at next level, right associativity) : result_scope.

Module Py.

(** The integer held by one byte. *)
Definition byte_val (b : byte) : Z := Z.of_N (Byte.to_N b).

(** [bytes(iterable_of_ints)]: every element must be in [range(256)]. *)
Fixpoint bytes_of_ints (l : list Z) : result bytes :=
  match l with
  | [] => Ok []
  | z :: r =>
      if (0 <=? z) && (z <? 256) then
        match Byte.of_N (Z.to_N z) with
        | Some b =>
            match bytes_of_ints r with
            | Ok bs => Ok (b :: bs)
            | Raise e => Raise e
            end
        | None => Raise ValueError
        end
      else Raise ValueError
  end.

(** [range(n)] as a list; empty when [n <= 0]. *)
Definition range (n : Z) : list Z := map Z.of_nat (seq 0 (Z.to_nat n)).

Definition reversed {A} (l : list A) : list A := rev l.

Definition len {A} (l : list A) : Z := Z.of_nat (length l).

(** [sum] of the integers of a byte string, starting from 0. *)
Definition sum (l : bytes) : Z :=
  fold_left (fun acc b => acc + byte_val b) l 0.

(** [int.from_bytes(bs, 'big')]. *)
Definition int_from_bytes_big (bs : bytes) : Z :=
  fold_left (fun acc b => acc * 256 + byte_val b) bs 0.

(** One bound of a slice, normalised the way Python does it. *)
Definition clamp_index (n i : Z) : Z :=
  if i <? 0 then Z.max (i + n) 0 else Z.min i n.

(** [l[lo:hi]]. *)
Definition slice {A} (l : list A) (lo hi : Z) : list A :=
  let n := len l in
  let lo' := clamp_index n lo in
  let hi' := clamp_index n hi in
  firstn (Z.to_nat (hi' - lo')) (skipn (Z.to_nat lo') l).

End Py.

(** ** ControlChars *)

Inductive ControlChars : Set :=
| ACK | NAK | SOH | EOT | CAN | C | START_TRANSMISSION.

Definition value (c : ControlChars) : bytes :=
  match c with
  | ACK => [x06]
  | NAK => [x15]
  | SOH => [x01]
  | EOT => [x04]
  | CAN => [x18]
  | C => [x43]
  | START_TRANSMISSION => [x31]
  end.

(** ** Packet *)

Definition MAX_SIZE : Z := 256.

(** [bytes([(value >> i*8) & 0xff for i in reversed(range(length))])] *)
Definition int_to_bytes (value length : Z) : result bytes :=
  Py.bytes_of_ints
    (map (fun i => Z.land (Z.shiftr value (i * 8)) 255)
         (Py.reversed (Py.range length))).

Record Packet : Set := mkPacket {
  _block_number : bytes;
  _start_of_header : bytes;
  _payload : bytes
}.

Local Open Scope result_scope.

Module PacketM.

(** [Packet.__init__] *)
Definition __init__ (block_number : Z) (payload : bytes) : result Packet :=
  bn <- int_to_bytes block_number 2 ;;
  Ok {| _block_number := bn;
        _start_of_header := value SOH;
        _payload := payload |}.

(** The [block_number] getter. *)
Definition block_number (self : Packet) : result Z :=
  Raise PermissionError.

(** The [block_number] setter. *)
Definition set_block_number (self : Packet) (v : Z) : result Packet :=
  bn <- int_to_bytes v 2 ;;
  Ok {| _block_number := bn;
        _start_of_header := _start_of_header self;
        _payload := _payload self |}.

Definition _payload_length (self : Packet) : result bytes :=
  int_to_bytes (Py.len (_payload self)) 2.

Definition _check_sum (self : Packet) : result bytes :=
  int_to_bytes (Z.land (Py.sum (_payload self)) 255) 1.

Definition as_bytearray (self : Packet) : result bytes :=
  pl <- _payload_length self ;;
  cs <- _check_sum self ;;
  Ok (_start_of_header self ++ _block_number self ++ pl
        ++ _payload self ++ cs).

End PacketM.

(** ** Float arithmetic used by the packet count

    [file_length / Packet.MAX_SIZE] is Python's true division of two
    ints: the IEEE-754 binary64 value nearest to the exact quotient
    (ties to even), [OverflowError] when that value is not finite.
    [SpecFloat] is the standard library's specification of binary64. *)

Module PyFloat.

Definition prec : Z := 53.
Definition emax : Z := 1024.

(** [a % b] on ints (the result has the sign of [b]). *)
Definition mod_ (a b : Z) : result Z :=
  if b =? 0 then Raise ZeroDivisionError else Ok (a mod b).

(** [a / b] on ints. *)
Definition truediv (a b : Z) : result spec_float :=
  if b =? 0 then Raise ZeroDivisionError
  else if a =? 0 then Ok (S754_zero (b <? 0))
  else
    let s := xorb (a <? 0) (b <? 0) in
    let '(mz, ez, lz) :=
      SFdiv_core_binary prec emax (Z.abs a) 0 (Z.abs b) 0 in
    match binary_round_aux prec emax s mz ez lz with
    | S754_infinity _ => Raise OverflowError
    | f => Ok f
    end.

(** [math.floor(x)] for a float [x]. *)
Definition math_floor (x : spec_float) : result Z :=
  match x with
  | S754_zero _ => Ok 0
  | S754_finite s m e =>
      let v := if s then Z.neg m else Z.pos m in
      Ok (if 0 <=? e then v * 2 ^ e else v / 2 ^ (- e))
  | S754_infinity _ => Raise OverflowError
  | S754_nan => Raise ValueError
  end.

End PyFloat.

(** ** The serial port and the objects that share it *)

Record World : Type := mkWorld {
  sp_written : list bytes;   (* argument of every [write], oldest first *)
  sp_incoming : bytes;       (* reply bytes the peer has sent, not yet read *)
  _crc_mode : option bytes;  (* BitStreamTransferProtocol._crc_mode *)
  _data : bytes;             (* BitStreamTransmitter._data *)
  _addr_int : Z              (* BitStreamTransmitter._addr_int *)
}.

(** How a call ends: it returns, it raises, or it waits for ever on a
    read that no reply byte will satisfy. *)
Inductive outcome (A : Type) : Type :=
| Returned (a : A) (w : World)
| Raised (e : exn) (w : World)
| Blocked (w : World).
Arguments Returned {A} a w.
Arguments Raised {A} e w.
Arguments Blocked {A} w.

Definition M (A : Type) : Type := World -> outcome A.

Definition ret {A} (a : A) : M A := fun w => Returned a w.

Definition bind {A B} (m : M A) (k : A -> M B) : M B :=
  fun w =>
    match m w with
    | Returned a w' => k a w'
    | Raised e w' => Raised e w'
    | Blocked w' => Blocked w'
    end.

Definition lift {A} (r : result A) : M A :=
  fun w => match r with Ok a => Returned a w | Raise e => Raised e w end.

Declare Scope io_scope.
Delimit Scope io_scope with io.
Notation "x <- e ;; k" := (bind e (fun x => k))
  (at level 61, e at next level, right associativity) : io_scope.
Notation "e ;;; k" := (bind e (fun _ => k))
  (at level 61, right associativity) : io_scope.

Definition final_world {A} (o : outcome A) : World :=
  match o with
  | Returned _ w => w
  | Raised _ w => w
  | Blocked w => w
  end.

Definition set_incoming (rx : bytes) (w : World) : World :=
  {| sp_written := sp_written w; sp_incoming := rx;
     _crc_mode := _crc_mode w; _data := _data w; _addr_int := _addr_int w |}.

Definition bytes_eqb (a b : bytes) : bool :=
  if list_eq_dec Byte.byte_eq_dec a b then true else false.

(** [ch in chars] *)
Definition contains (chars : list bytes) (ch : bytes) : bool :=
  existsb (bytes_eqb ch) chars.

Module SerialPort.

(** [write(data)] *)
Definition write (data : bytes) : M unit :=
  fun w =>
    Returned tt
      {| sp_written := sp_written w ++ [data];
         sp_incoming := sp_incoming w;
         _crc_mode := _crc_mode w; _data := _data w;
         _addr_int := _addr_int w |}.

(** [read()]: one byte, blocking. *)
Definition read : M bytes :=
  fun w =>
    match sp_incoming w with
    | [] => Blocked w
    | c :: rest => Returned [c] (set_incoming rest w)
    end.

(** [read_until(expected)] for a one-byte terminator: consumes bytes
    up to and including the first one equal to [expected] and returns
    them. *)
Fixpoint read_until_from (expected line incoming : bytes) (w : World)
  : outcome bytes :=
  match incoming with
  | [] => Blocked (set_incoming [] w)
  | c :: rest =>
      if bytes_eqb [c] expected
      then Returned (line ++ [c]) (set_incoming rest w)
      else read_until_from expected (line ++ [c]) rest w
  end.

Definition read_until (expected : bytes) : M bytes :=
  fun w => read_until_from expected [] (sp_incoming w) w.

End SerialPort.

(** ** BitStreamTransferProtocol *)

(** The shapes of argument [_make_bytes] tells apart by [isinstance].
    Lists are homogeneous, as the annotation of the source has them.
    [DBytes] is a [bytes] object (which is not a [bytearray]);
    [DUnsupported] stands for any other object, and for a non-empty
    list whose first element is none of [ControlChars], [int] and
    [bytes]. *)
Inductive write_data : Type :=
| DByteArray (b : bytes)
| DControlList (l : list ControlChars)
| DIntList (l : list Z)
| DBytesList (l : list bytes)
| DInt (z : Z)
| DControl (c : ControlChars)
| DBytes (b : bytes)
| DUnsupported.

Local Open Scope io_scope.

Module BitStreamTransferProtocol.

(** A list is dispatched on its first element; a lone int or control
    character is wrapped into a one-element list first; whatever no
    [isinstance] test accepts ends in the final
    [raise ValueError('Unsupported data type')]. *)
Definition _make_bytes (data : write_data) : result bytes :=
  match data with
  | DByteArray b => Ok b
  | DControlList l => Ok (concat (map value l))
  | DIntList l => Py.bytes_of_ints l
  | DBytesList l => Ok (concat l)
  | DInt z => Py.bytes_of_ints [z]
  | DControl c => Ok (concat (map value [c]))
  | DBytes _ => Raise ValueError
  | DUnsupported => Raise ValueError
  end.

Definition _write (data : write_data) : M unit :=
  b <- lift (_make_bytes data) ;;
  SerialPort.write b.

(** [while True: ch = self._sp.read(); if ch in chars: return ch].
    Every iteration reads one byte of the pending input. *)
Fixpoint _wait_for_chars_from (chars : list bytes) (incoming : bytes)
    (w : World) : outcome bytes :=
  match incoming with
  | [] => Blocked (set_incoming [] w)
  | c :: rest =>
      if contains chars [c]
      then Returned [c] (set_incoming rest w)
      else _wait_for_chars_from chars rest w
  end.

Definition _wait_for_chars (chars : list bytes) : M bytes :=
  fun w => _wait_for_chars_from chars (sp_incoming w) w.

Definition _check_crc_mode : M bytes :=
  _wait_for_chars [value C; value NAK].

Definition _wait_for_ack : M bool :=
  ch <- _wait_for_chars [value ACK; value NAK] ;;
  ret (bytes_eqb ch (value ACK)).

Definition set_crc_mode (m : bytes) : M unit :=
  fun w =>
    Returned tt
      {| sp_written := sp_written w; sp_incoming := sp_incoming w;
         _crc_mode := Some m; _data := _data w;
         _addr_int := _addr_int w |}.

Definition start_transmission : M unit :=
  _write (DControl START_TRANSMISSION) ;;;
  m <- _check_crc_mode ;;
  set_crc_mode m.

Definition stop_transmission : M unit :=
  _write (DControl EOT) ;;;
  _ <- SerialPort.read_until (value ACK) ;;
  ret tt.

Definition send_packet (packet : Packet) : M bool :=
  frame <- lift (PacketM.as_bytearray packet) ;;
  SerialPort.write frame ;;;
  _wait_for_ack.

End BitStreamTransferProtocol.

(** ** BitStreamTransmitter *)

Module BitStreamTransmitter.

Import BitStreamTransferProtocol.

(** [math.floor(file_length / Packet.MAX_SIZE)
     if file_length % Packet.MAX_SIZE == 0
     else math.floor(file_length / Packet.MAX_SIZE) + 1] *)
Definition _calc_num_required_packets (file_length : Z) : result Z :=
  (r <- PyFloat.mod_ file_length MAX_SIZE ;;
   if r =? 0 then
     q <- PyFloat.truediv file_length MAX_SIZE ;;
     PyFloat.math_floor q
   else
     q <- PyFloat.truediv file_length MAX_SIZE ;;
     f <- PyFloat.math_floor q ;;
     Ok (f + 1))%result.

Definition _num_required_packets_int : M Z :=
  fun w => lift (_calc_num_required_packets (Py.len (_data w))) w.

Definition _address : M bytes :=
  fun w => lift (int_to_bytes (_addr_int w) 4) w.

Definition _num_required_packets : M bytes :=
  n <- _num_required_packets_int ;;
  lift (int_to_bytes n 4).

Definition _send_num_packets_and_address : M unit :=
  a <- _address ;;
  n <- _num_required_packets ;;
  p <- lift (PacketM.__init__ 0 (a ++ n)) ;;
  _ <- send_packet p ;;
  ret tt.

Definition _start_transmission : M unit := start_transmission.

Definition _stop_transmission : M unit := stop_transmission.

(** [for x in xs: body(x)] *)
Fixpoint for_each {A} (xs : list A) (body : A -> M unit) : M unit :=
  match xs with
  | [] => ret tt
  | x :: r => body x ;;; for_each r body
  end.

(** The body of the loop: the [print] evaluates the packet count,
    then one packet is built from a slice of [_data] and sent; the
    boolean [send_packet] returns is dropped. *)
Definition _send_one (id : Z) : M unit :=
  _ <- _num_required_packets_int ;;
  p <- (fun w =>
          lift (PacketM.__init__ (id + 1)
                  (Py.slice (_data w) (id * MAX_SIZE)
                            ((id + 1) * MAX_SIZE))) w) ;;
  _ <- send_packet p ;;
  ret tt.

Definition _send_bitfile_content : M unit :=
  n <- _num_required_packets_int ;;
  for_each (Py.range n) _send_one.

Definition store (contents : bytes) (address : Z) : M unit :=
  fun w =>
    Returned tt
      {| sp_written := sp_written w; sp_incoming := sp_incoming w;
         _crc_mode := _crc_mode w; _data := contents;
         _addr_int := address |}.

(** [upload_bitstream_to]; [contents] is what [f.read()] returned for
    the bit file.  The two [print] calls that format the packet count
    are kept because formatting evaluates it. *)
Definition upload_bitstream_to (contents : bytes) (address : Z) : M unit :=
  store contents address ;;;
  _start_transmission ;;;
  _ <- _num_required_packets_int ;;
  _send_num_packets_and_address ;;;
  _send_bitfile_content ;;;
  _stop_transmission.

End BitStreamTransmitter.

(** ** Reference definitions, written from the specification

    These follow the specification's wording (wire layout table, chunking
    and packet-count formulas); the theorems below compare them with the
    code above. *)

Module Spec.

Definition byte_of_Z (z : Z) : byte :=
  match Byte.of_N (Z.to_N z) with
  | Some b => b
  | None => x00
  end.

(** The [w]-byte big-endian encoding: most significant byte first,
    bits above the width dropped. *)
Fixpoint big_endian (w : nat) (v : Z) : bytes :=
  match w with
  | O => []
  | S w' => big_endian w' (v / 256) ++ [byte_of_Z (v mod 256)]
  end.

(** Sum of all payload bytes modulo 256. *)
Definition checksum (p : bytes) : byte :=
  byte_of_Z (fold_right (fun b acc => Py.byte_val b + acc) 0 p mod 256).

(** START_OF_HEADER(1) | block_id(2) | payload_length(2) | payload(N)
    | checksum(1) *)
Definition wire_layout (block_id : Z) (payload : bytes) : bytes :=
  [x01] ++ big_endian 2 block_id ++ big_endian 2 (Py.len payload)
    ++ payload ++ [checksum payload].

(** A reader of the wire layout: start marker, block id, payload
    length, that many payload bytes, then exactly one checksum byte
    that must match. *)
Definition deserialize (frame : bytes) : option (Z * bytes) :=
  match frame with
  | soh :: b1 :: b0 :: l1 :: l0 :: rest =>
      let n := Z.to_nat (Py.int_from_bytes_big [l1; l0]) in
      let payload := firstn n rest in
      match skipn n rest with
      | [ck] =>
          if Byte.eqb soh x01 && Byte.eqb ck (checksum payload)
             && Nat.eqb (length payload) n
          then Some (Py.int_from_bytes_big [b1; b0], payload)
          else None
      | _ => None
      end
  | _ => None
  end.

(** ceil(a / b) on integers. *)
Definition ceil_div (a b : Z) : Z := - ((- a) / b).

(** The [i]-th 256-byte chunk of a file, counting from 0. *)
Definition chunk (data : bytes) (i : nat) : bytes :=
  firstn 256 (skipn (256 * i) data).

(** The chunks written by one upload that runs to its end, for a
    packet count [n]. *)
Definition upload_sequence (contents : bytes) (address : Z) (n : Z)
  : list bytes :=
  [value START_TRANSMISSION]
    ++ [wire_layout 0 (big_endian 4 address ++ big_endian 4 n)]
    ++ map (fun i => wire_layout (Z.of_nat i + 1) (chunk contents i))
           (seq 0 (Z.to_nat n))
    ++ [value EOT].

(** The first byte of [rx] that is one of [chars], and what follows it. *)
Fixpoint first_of (chars : list byte) (rx : bytes) : option (byte * bytes) :=
  match rx with
  | [] => None
  | c :: rest =>
      if existsb (Byte.eqb c) chars then Some (c, rest)
      else first_of chars rest
  end.

(** What is left of [rx] after [k] packet replies (ACK or NAK each). *)
Fixpoint after_replies (k : nat) (rx : bytes) : option bytes :=
  match k with
  | O => Some rx
  | S k' =>
      match first_of [x06; x15] rx with
      | Some (_, rest) => after_replies k' rest
      | None => None
      end
  end.

(** The replies one upload of [n] body packets waits for: a mode byte
    ('C' or NAK), one reply for the metadata packet and one per body
    packet, and a final ACK.  Gives the mode byte and the unread rest. *)
Definition upload_replies (n : nat) (rx : bytes) : option (byte * bytes) :=
  match first_of [x43; x15] rx with
  | Some (m, r1) =>
      match after_replies (S n) r1 with
      | Some r2 =>
          match first_of [x06] r2 with
          | Some (_, r3) => Some (m, r3)
          | None => None
          end
      | None => None
      end
  | None => None
  end.

End Spec.

(** Largest length of a [bytes] object (CPython's [sys.maxsize] on a
    64-bit build). *)
Definition PY_SSIZE_T_MAX : Z := 2 ^ 63 - 1.

(** The chunks an upload adds to the port when it starts from a fresh
    transmitter and the reply bytes [rx]. *)
Definition transport_output (contents : bytes) (address : Z) (rx : bytes)
  : list bytes :=
  sp_written
    (final_world
       (BitStreamTransmitter.upload_bitstream_to contents address
          (mkWorld [] rx None [] 0))).

(** The bytes a packet puts on the wire. *)
Definition frame (pk : Packet) : bytes :=
  match PacketM.as_bytearray pk with
  | Ok f => f
  | Raise _ => []
  end.

(** The world after [chunks] were written and the pending input became
    [rx]; the fields of the protocol and transmitter objects stay. *)
Definition advance (w : World) (chunks : list bytes) (rx : bytes) : World :=
  {| sp_written := sp_written w ++ chunks; sp_incoming := rx;
     _crc_mode := _crc_mode w; _data := _data w; _addr_int := _addr_int w |}.

(** ** The claims about chunking and about the upload sequence, as the
    specification words them *)

(** Body packets have block ids 1..packet_count, the i-th carries
    [data[(i-1)*256 : i*256]], of at most 256 bytes, and the payloads
    in order give back the file. *)
Definition chunking_as_specified (data : bytes) : Prop :=
  exists n,
    BitStreamTransmitter._calc_num_required_packets (Py.len data) = Ok n
    /\ (forall i, 1 <= i <= n ->
          exists pk,
            PacketM.__init__ i
              (Py.slice data ((i - 1) * MAX_SIZE) (i * MAX_SIZE)) = Ok pk
            /\ Py.int_from_bytes_big (_block_number pk) = i
            /\ _payload pk = Py.slice data ((i - 1) * 256) (i * 256)
            /\ Py.len (_payload pk) <= 256)
    /\ concat (map (fun id => Py.slice data (id * 256) ((id + 1) * 256))
                   (Py.range n)) = data.

(** The metadata packet has block id 0 and an 8-byte payload: the
    4-byte big-endian encoding of the address, then the 4-byte
    big-endian encoding of the packet count. *)
Definition metadata_as_specified (contents : bytes) (a : Z) : Prop :=
  exists n ab nb pk,
    BitStreamTransmitter._calc_num_required_packets (Py.len contents) = Ok n
    /\ int_to_bytes a 4 = Ok ab
    /\ int_to_bytes n 4 = Ok nb
    /\ PacketM.__init__ 0 (ab ++ nb) = Ok pk
    /\ Py.int_from_bytes_big (_block_number pk) = 0
    /\ Py.len (_payload pk) = 8
    /\ Py.len ab = 4 /\ Py.int_from_bytes_big ab = a
    /\ Py.len nb = 4 /\ Py.int_from_bytes_big nb = n.

(** Whatever the replies are, the chunks written are the start byte,
    the metadata packet, [packet_count] body packets and the end byte. *)
Definition sequence_as_specified (contents : bytes) (address : Z)
    (rx : bytes) : Prop :=
  exists n,
    BitStreamTransmitter._calc_num_required_packets (Py.len contents) = Ok n
    /\ forall w, sp_incoming w = rx ->
         sp_written
           (final_world
              (BitStreamTransmitter.upload_bitstream_to contents address w))
         = sp_written w ++ Spec.upload_sequence contents address n.

(** ** Two runs that differ only in what the session does not read

    [same_session pre w0 w]: the world [w] is [w0] with the older
    writes [pre] in front of its log and possibly another [_crc_mode];
    pending replies, [_data] and [_addr_int] agree. *)
Definition same_session (pre : list bytes) (w0 w : World) : Prop :=
  sp_written w = pre ++ sp_written w0
  /\ sp_incoming w = sp_incoming w0
  /\ _data w = _data w0
  /\ _addr_int w = _addr_int w0.

Definition same_outcome {A} (pre : list bytes) (o0 o : outcome A) : Prop :=
  match o0, o with
  | Returned a0 w0, Returned a w => a0 = a /\ same_session pre w0 w
  | Raised e0 w0, Raised e w => e0 = e /\ same_session pre w0 w
  | Blocked w0, Blocked w => same_session pre w0 w
  | _, _ => False
  end.

(** A computation that cannot tell such worlds apart. *)
Definition oblivious {A} (m : M A) : Prop :=
  forall pre w0 w, same_session pre w0 w -> same_outcome pre (m w0) (m w).

(** A computation that leaves [_data] and [_addr_int] as they are,
    however it ends. *)
Definition keeps_session {A} (m : M A) : Prop :=
  forall w,
    _data (final_world (m w)) = _data w
    /\ _addr_int (final_world (m w)) = _addr_int w.

(** ** How far an upload gets on given replies *)

(** Body packets written by the loop over [k] packets on the replies
    [rx] (a packet is written before its reply is awaited), and the
    replies left when all [k] were answered. *)
Fixpoint frames_sent (k : nat) (rx : bytes) : nat * option bytes :=
  match k with
  | O => (O, Some rx)
  | S k' =>
      match Spec.first_of [x06; x15] rx with
      | None => (1%nat, None)
      | Some (_, rest) =>
          let '(j, r) := frames_sent k' rest in (S j, r)
      end
  end.

(** Chunks written by an upload of [n] body packets on the replies
    [rx]: the start byte, then the metadata packet once the handshake
    is answered, then the body packets while replies keep coming, then
    the end byte. *)
Definition chunks_written (n : nat) (rx : bytes) : nat :=
  match Spec.first_of [x43; x15] rx with
  | None => 1%nat
  | Some (_, r1) =>
      match Spec.first_of [x06; x15] r1 with
      | None => 2%nat
      | Some (_, r2) =>
          match frames_sent n r2 with
          | (j, None) => (2 + j)%nat
          | (j, Some _) => (2 + j + 1)%nat
          end
      end
  end.

(** * Properties *)

Local Open Scope result_scope.

(** ** Bytes and big-endian encoding *)

Section Encoding.

Lemma byte_val_range (b : byte) : 0 <= Py.byte_val b < 256.
Proof.
  unfold Py.byte_val. pose proof (Byte.to_N_bounded b). lia.
Qed.

Lemma of_N_byte_of_Z (z : Z) :
  0 <= z < 256 -> Byte.of_N (Z.to_N z) = Some (Spec.byte_of_Z z).
Proof.
  intros Hz. unfold Spec.byte_of_Z.
  destruct (Byte.of_N (Z.to_N z)) eqn:E; [reflexivity|].
  apply Byte.of_N_None_iff in E. lia.
Qed.

Lemma byte_val_of_Z (z : Z) :
  0 <= z < 256 -> Py.byte_val (Spec.byte_of_Z z) = z.
Proof.
  intros Hz. unfold Py.byte_val.
  pose proof (of_N_byte_of_Z z Hz) as E.
  apply Byte.to_of_N in E. rewrite E. lia.
Qed.

Lemma byte_of_Z_val (b : byte) : Spec.byte_of_Z (Py.byte_val b) = b.
Proof.
  unfold Spec.byte_of_Z, Py.byte_val.
  rewrite N2Z.id, Byte.of_to_N. reflexivity.
Qed.

Lemma bytes_of_ints_cons (z : Z) (r : list Z) :
  0 <= z < 256 ->
  Py.bytes_of_ints (z :: r) =
  (bs <- Py.bytes_of_ints r ;; Ok (Spec.byte_of_Z z :: bs)).
Proof.
  intros Hz. simpl.
  replace ((0 <=? z) && (z <? 256)) with true
    by (symmetry; apply andb_true_intro; split; lia).
  rewrite (of_N_byte_of_Z z Hz).
  destruct (Py.bytes_of_ints r); reflexivity.
Qed.

Lemma land_255 (x : Z) : Z.land x 255 = x mod 256.
Proof.
  change 255 with (Z.ones 8). rewrite Z.land_ones by lia. reflexivity.
Qed.

Lemma range_succ (n : nat) :
  Py.range (Z.of_nat (S n)) = Py.range (Z.of_nat n) ++ [Z.of_nat n].
Proof.
  unfold Py.range. rewrite !Nat2Z.id, seq_S, map_app. reflexivity.
Qed.

Lemma big_endian_length (n : nat) (v : Z) :
  length (Spec.big_endian n v) = n.
Proof.
  revert v. induction n as [|n IH]; intros v; simpl; [reflexivity|].
  rewrite length_app, IH. simpl. lia.
Qed.

(** The encoding can also be peeled from its most significant byte,
    which is the order the comprehension in [int_to_bytes] runs in. *)
Lemma big_endian_head (n : nat) (v : Z) :
  Spec.big_endian (S n) v =
  Spec.byte_of_Z ((v / 256 ^ Z.of_nat n) mod 256) :: Spec.big_endian n v.
Proof.
  revert v. induction n as [|n IH]; intros v.
  - simpl. rewrite Z.div_1_r. reflexivity.
  - change (Spec.big_endian (S (S n)) v)
      with (Spec.big_endian (S n) (v / 256)
              ++ [Spec.byte_of_Z (v mod 256)]).
    rewrite IH. simpl app.
    rewrite Z.div_div by lia.
    replace (256 * 256 ^ Z.of_nat n) with (256 ^ Z.of_nat (S n))
      by (rewrite Nat2Z.inj_succ, Z.pow_succ_r by lia; reflexivity).
    reflexivity.
Qed.

Lemma int_to_bytes_nat (v : Z) (n : nat) :
  int_to_bytes v (Z.of_nat n) = Ok (Spec.big_endian n v).
Proof.
  induction n as [|n IH]; [reflexivity|].
  unfold int_to_bytes in *. unfold Py.reversed in *.
  rewrite range_succ, rev_app_distr. simpl rev. simpl app. simpl map.
  rewrite land_255, bytes_of_ints_cons
    by (apply Z.mod_pos_bound; lia).
  rewrite IH. simpl rbind.
  rewrite big_endian_head, Z.shiftr_div_pow2 by lia.
  replace (2 ^ (Z.of_nat n * 8)) with (256 ^ Z.of_nat n)
    by (change 256 with (2 ^ 8); rewrite <- Z.pow_mul_r by lia;
        f_equal; lia).
  reflexivity.
Qed.

Lemma int_to_bytes_ok (v w : Z) :
  int_to_bytes v w = Ok (Spec.big_endian (Z.to_nat w) v).
Proof.
  destruct (Z.le_gt_cases 0 w) as [Hw|Hw].
  - rewrite <- (Z2Nat.id w Hw) at 1. apply int_to_bytes_nat.
  - unfold int_to_bytes, Py.range.
    replace (Z.to_nat w) with O by lia. reflexivity.
Qed.

Lemma from_bytes_snoc (l : bytes) (b : byte) :
  Py.int_from_bytes_big (l ++ [b]) =
  Py.int_from_bytes_big l * 256 + Py.byte_val b.
Proof. unfold Py.int_from_bytes_big. rewrite fold_left_app. reflexivity. Qed.

Lemma big_endian_decode (n : nat) (v : Z) :
  Py.int_from_bytes_big (Spec.big_endian n v) = v mod 256 ^ Z.of_nat n.
Proof.
  revert v. induction n as [|n IH]; intros v.
  - simpl. rewrite Z.mod_1_r. reflexivity.
  - change (Spec.big_endian (S n) v)
      with (Spec.big_endian n (v / 256) ++ [Spec.byte_of_Z (v mod 256)]).
    rewrite from_bytes_snoc, IH, byte_val_of_Z
      by (apply Z.mod_pos_bound; lia).
    rewrite Nat2Z.inj_succ, Z.pow_succ_r by lia.
    rewrite (Z.rem_mul_r v 256 (256 ^ Z.of_nat n)) by lia.
    lia.
Qed.

Lemma big_endian_decode_small (n : nat) (v : Z) :
  0 <= v < 256 ^ Z.of_nat n ->
  Py.int_from_bytes_big (Spec.big_endian n v) = v.
Proof.
  intros Hv. rewrite big_endian_decode. apply Z.mod_small. exact Hv.
Qed.

End Encoding.

(** C8. For every integer value >= 0 and width w >= 0, [int_to_bytes]
    never fails and returns exactly [w] bytes that form the big-endian
    encoding of [value mod 2^(8*w)]: the result is the reference
    encoding, it has length [w], and read back as a big-endian number
    it is [value mod 2^(8*w)], so larger values wrap silently. *)
Theorem int_to_bytes_big_endian (value w : Z) :
  0 <= value -> 0 <= w ->
  exists bs,
    int_to_bytes value w = Ok bs
    /\ bs = Spec.big_endian (Z.to_nat w) value
    /\ Py.len bs = w
    /\ Py.int_from_bytes_big bs = value mod 2 ^ (8 * w).
Proof.
  intros _ Hw. exists (Spec.big_endian (Z.to_nat w) value).
  split; [apply int_to_bytes_ok|]. split; [reflexivity|]. split.
  - unfold Py.len. rewrite big_endian_length. lia.
  - rewrite big_endian_decode, Z2Nat.id by lia.
    change 256 with (2 ^ 8). rewrite <- Z.pow_mul_r by lia. reflexivity.
Qed.

Lemma int_to_bytes_big_endian_witness :
  exists bs,
    int_to_bytes 66000 2 = Ok bs
    /\ bs = Spec.big_endian (Z.to_nat 2) 66000
    /\ Py.len bs = 2
    /\ Py.int_from_bytes_big bs = 66000 mod 2 ^ (8 * 2).
Proof. apply (int_to_bytes_big_endian 66000 2); lia. Defined.

(** ** Packet framing *)

Section Framing.

Lemma sum_from (l : bytes) (a : Z) :
  fold_left (fun acc b => acc + Py.byte_val b) l a =
  a + fold_right (fun b acc => Py.byte_val b + acc) 0 l.
Proof.
  revert a. induction l as [|x l IH]; intros a; simpl; [lia|].
  rewrite IH. lia.
Qed.

Lemma sum_fold_right (l : bytes) :
  Py.sum l = fold_right (fun b acc => Py.byte_val b + acc) 0 l.
Proof. unfold Py.sum. rewrite sum_from. lia. Qed.

Lemma big_endian_1 (v : Z) :
  Spec.big_endian 1 v = [Spec.byte_of_Z (v mod 256)].
Proof. reflexivity. Qed.

Lemma big_endian_2 (v : Z) :
  Spec.big_endian 2 v =
  [Spec.byte_of_Z ((v / 256) mod 256); Spec.byte_of_Z (v mod 256)].
Proof. reflexivity. Qed.

Lemma init_ok (b : Z) (p : bytes) :
  PacketM.__init__ b p =
  Ok {| _block_number := Spec.big_endian 2 b;
        _start_of_header := [x01];
        _payload := p |}.
Proof.
  unfold PacketM.__init__. rewrite int_to_bytes_ok. reflexivity.
Qed.

Lemma check_sum_ok (pk : Packet) :
  PacketM._check_sum pk = Ok [Spec.checksum (_payload pk)].
Proof.
  unfold PacketM._check_sum. rewrite int_to_bytes_ok, land_255.
  change (Z.to_nat 1) with 1%nat. rewrite big_endian_1.
  rewrite Z.mod_mod by lia. unfold Spec.checksum.
  rewrite sum_fold_right. reflexivity.
Qed.

Lemma as_bytearray_ok (pk : Packet) :
  PacketM.as_bytearray pk =
  Ok (_start_of_header pk ++ _block_number pk
        ++ Spec.big_endian 2 (Py.len (_payload pk))
        ++ _payload pk ++ [Spec.checksum (_payload pk)]).
Proof.
  unfold PacketM.as_bytearray, PacketM._payload_length.
  rewrite int_to_bytes_ok, check_sum_ok. reflexivity.
Qed.

Lemma serialize_ok (b : Z) (p : bytes) :
  (pk <- PacketM.__init__ b p ;; PacketM.as_bytearray pk) =
  Ok (Spec.wire_layout b p).
Proof. rewrite init_ok. simpl rbind. rewrite as_bytearray_ok. reflexivity. Qed.

Lemma checksum_val (p : bytes) :
  Py.byte_val (Spec.checksum p) = Py.sum p mod 256.
Proof.
  unfold Spec.checksum. rewrite <- sum_fold_right.
  apply byte_val_of_Z, Z.mod_pos_bound. lia.
Qed.

Lemma deserialize_wire_layout (b : Z) (p : bytes) :
  0 <= b < 2 ^ 16 -> Py.len p <= 256 ->
  Spec.deserialize (Spec.wire_layout b p) = Some (b, p).
Proof.
  intros Hb Hp.
  assert (Hl : 0 <= Py.len p < 256 ^ Z.of_nat 2)
    by (unfold Py.len in *; change (256 ^ Z.of_nat 2) with 65536; lia).
  assert (Hb' : 0 <= b < 256 ^ Z.of_nat 2)
    by (change (256 ^ Z.of_nat 2) with 65536;
        change (2 ^ 16) with 65536 in Hb; lia).
  pose proof (big_endian_decode_small 2 _ Hl) as Dl.
  pose proof (big_endian_decode_small 2 _ Hb') as Db.
  unfold Spec.wire_layout. rewrite !big_endian_2 in *.
  cbv beta iota delta [app Spec.deserialize].
  rewrite Dl, Db. unfold Py.len. rewrite Nat2Z.id.
  rewrite firstn_app, Nat.sub_diag, firstn_all, firstn_O, app_nil_r.
  rewrite skipn_app, Nat.sub_diag, skipn_all. simpl app. simpl skipn.
  rewrite Nat.eqb_refl.
  replace (Byte.eqb (Spec.checksum p) (Spec.checksum p)) with true
    by (symmetry; apply Byte.byte_dec_lb; reflexivity).
  reflexivity.
Qed.

End Framing.

(** C1. For every block id b with 0 <= b < 2^16 and every payload p of
    at most 256 bytes, serializing [Packet(b, p)] yields the start byte
    0x01, then two bytes that are the big-endian encoding of b, then two
    bytes that are the big-endian encoding of len(p), then p, then one
    byte holding sum(p) mod 256, in that order. *)
Theorem as_bytearray_wire_layout (b : Z) (p : bytes) :
  0 <= b < 2 ^ 16 -> 0 <= Py.len p <= 256 ->
  exists idb lenb ck,
    (pk <- PacketM.__init__ b p ;; PacketM.as_bytearray pk) =
      Ok ([x01] ++ idb ++ lenb ++ p ++ [ck])
    /\ Py.len idb = 2 /\ Py.int_from_bytes_big idb = b
    /\ Py.len lenb = 2 /\ Py.int_from_bytes_big lenb = Py.len p
    /\ Py.byte_val ck = Py.sum p mod 256.
Proof.
  intros Hb Hp.
  exists (Spec.big_endian 2 b), (Spec.big_endian 2 (Py.len p)),
         (Spec.checksum p).
  split; [apply serialize_ok|].
  change (2 ^ 16) with (256 ^ Z.of_nat 2) in Hb.
  assert (Hl : 0 <= Py.len p < 256 ^ Z.of_nat 2)
    by (change (256 ^ Z.of_nat 2) with 65536; lia).
  repeat split.
  - apply big_endian_decode_small, Hb.
  - apply big_endian_decode_small, Hl.
  - apply checksum_val.
Qed.

Lemma as_bytearray_wire_layout_witness :
  exists idb lenb ck,
    (pk <- PacketM.__init__ 258 [x0a; xff; x03] ;; PacketM.as_bytearray pk) =
      Ok ([x01] ++ idb ++ lenb ++ [x0a; xff; x03] ++ [ck])
    /\ Py.len idb = 2 /\ Py.int_from_bytes_big idb = 258
    /\ Py.len lenb = 2
    /\ Py.int_from_bytes_big lenb = Py.len [x0a; xff; x03]
    /\ Py.byte_val ck = Py.sum [x0a; xff; x03] mod 256.
Proof.
  apply (as_bytearray_wire_layout 258 [x0a; xff; x03]);
    unfold Py.len; simpl; lia.
Defined.

(** C6. For every block id b in 0..65535 and payload p of at most 256
    bytes, the frame [Packet(b, p)] serializes to determines (b, p): the
    reader of the wire layout recovers exactly (b, p) from it, no other
    pair in range serializes to the same frame, and the last byte of the
    frame holds sum(p) mod 256. *)
Theorem serialize_round_trip (b : Z) (p : bytes) :
  0 <= b <= 65535 -> 0 <= Py.len p <= 256 ->
  exists frame,
    (pk <- PacketM.__init__ b p ;; PacketM.as_bytearray pk) = Ok frame
    /\ Spec.deserialize frame = Some (b, p)
    /\ Py.byte_val (last frame x00) = Py.sum p mod 256
    /\ (forall b' p',
          0 <= b' <= 65535 -> 0 <= Py.len p' <= 256 ->
          (pk <- PacketM.__init__ b' p' ;; PacketM.as_bytearray pk) = Ok frame ->
          b' = b /\ p' = p).
Proof.
  intros Hb Hp. exists (Spec.wire_layout b p).
  change (2 ^ 16) with 65536 in *.
  assert (D : Spec.deserialize (Spec.wire_layout b p) = Some (b, p))
    by (apply deserialize_wire_layout;
        [change (2 ^ 16) with 65536|]; lia).
  split; [apply serialize_ok|]. split; [exact D|]. split.
  - unfold Spec.wire_layout. rewrite !app_assoc, last_last.
    apply checksum_val.
  - intros b' p' Hb' Hp' E. rewrite serialize_ok in E.
    assert (E' : Spec.wire_layout b' p' = Spec.wire_layout b p)
      by congruence.
    clear E.
    assert (D' : Spec.deserialize (Spec.wire_layout b' p') = Some (b', p'))
      by (apply deserialize_wire_layout;
          [change (2 ^ 16) with 65536|]; lia).
    rewrite E', D in D'. split; congruence.
Qed.

Lemma serialize_round_trip_witness :
  exists frame,
    (pk <- PacketM.__init__ 7 [x01; x02] ;; PacketM.as_bytearray pk) = Ok frame
    /\ Spec.deserialize frame = Some (7, [x01; x02])
    /\ Py.byte_val (last frame x00) = Py.sum [x01; x02] mod 256
    /\ (forall b' p',
          0 <= b' <= 65535 -> 0 <= Py.len p' <= 256 ->
          (pk <- PacketM.__init__ b' p' ;; PacketM.as_bytearray pk) = Ok frame ->
          b' = 7 /\ p' = [x01; x02]).
Proof.
  apply (serialize_round_trip 7 [x01; x02]); unfold Py.len; simpl; lia.
Defined.

(** C9. For every packet, however it was built, reading [block_number]
    raises [PermissionError] and returns no value, while assigning any
    integer to it succeeds and replaces the stored two-byte encoding,
    leaving the rest of the packet alone. *)
Theorem block_number_write_only (pk : Packet) (v : Z) :
  PacketM.block_number pk = Raise PermissionError
  /\ (forall x, PacketM.block_number pk <> Ok x)
  /\ exists pk',
       PacketM.set_block_number pk v = Ok pk'
       /\ _block_number pk' = Spec.big_endian 2 v
       /\ _start_of_header pk' = _start_of_header pk
       /\ _payload pk' = _payload pk.
Proof.
  split; [reflexivity|]. split; [intros x; discriminate|].
  unfold PacketM.set_block_number. rewrite int_to_bytes_ok.
  eexists. split; [reflexivity|]. repeat split.
Qed.

(** ** The packet count

    [SpecFloat]'s rounding is followed through the one division the
    source performs: the shift count is the number of bits dropped, the
    result is finite for every length a [bytes] object can have, and
    exact below 2^53. *)

Import BitStreamTransmitter.

Section PacketCount.

Lemma digits2_size (p : positive) : digits2_pos p = Pos.size p.
Proof. induction p; simpl; congruence. Qed.

Lemma Zdigits2_bounds (p : positive) :
  2 ^ (Zdigits2 (Z.pos p) - 1) <= Z.pos p < 2 ^ Zdigits2 (Z.pos p).
Proof.
  unfold Zdigits2. rewrite digits2_size.
  pose proof (Pos.size_gt p) as Hgt. pose proof (Pos.size_le p) as Hle.
  assert (E : Z.pos (2 ^ Pos.size p) = 2 ^ Z.pos (Pos.size p))
    by (rewrite Pos2Z.inj_pow; reflexivity).
  assert (E2 : 2 ^ Z.pos (Pos.size p) = 2 * 2 ^ (Z.pos (Pos.size p) - 1)).
  { rewrite <- Z.pow_succ_r by lia. f_equal. lia. }
  split; lia.
Qed.

Lemma Zdigits2_unique (p : positive) (k : Z) :
  2 ^ (k - 1) <= Z.pos p < 2 ^ k -> Zdigits2 (Z.pos p) = k.
Proof.
  intros [Hlo Hhi]. pose proof (Zdigits2_bounds p) as [Blo Bhi].
  set (d := Zdigits2 (Z.pos p)) in *.
  assert (0 < d) by (unfold d; simpl; lia).
  assert (0 < k).
  { destruct (Z.le_gt_cases k 0); [|assumption].
    assert (2 ^ k <= 1)
      by (destruct (Z.eq_dec k 0) as [->|];
          [simpl; lia | rewrite Z.pow_neg_r by lia; lia]).
    lia. }
  destruct (Z.lt_trichotomy d k) as [Hlt | [Heq | Hgt]]; [|assumption|].
  - assert (2 ^ d <= 2 ^ (k - 1)) by (apply Z.pow_le_mono_r; lia). lia.
  - assert (2 ^ k <= 2 ^ (d - 1)) by (apply Z.pow_le_mono_r; lia). lia.
Qed.

Lemma Zdigits2_le (m k : Z) : 0 <= k -> 0 <= m < 2 ^ k -> Zdigits2 m <= k.
Proof.
  intros Hk [Hlo Hhi]. destruct m as [|p|p]; [simpl; lia| |lia].
  pose proof (Zdigits2_bounds p) as [Blo _].
  set (d := Zdigits2 (Z.pos p)) in *.
  destruct (Z.le_gt_cases d k); [assumption|].
  assert (2 ^ k <= 2 ^ (d - 1)) by (apply Z.pow_le_mono_r; lia). lia.
Qed.

Lemma Zdigits2_nonneg (m : Z) : 0 <= Zdigits2 m.
Proof. destruct m; simpl; lia. Qed.

Lemma shr_1_m (mrs : shr_record) :
  0 <= shr_m mrs -> shr_m (shr_1 mrs) = shr_m mrs / 2.
Proof.
  destruct mrs as [m r s]. cbn [shr_m]. intros Hm.
  destruct m as [|[p|p|]|p]; try lia; cbn [shr_1 shr_m].
  - reflexivity.
  - apply (Z.div_unique (Z.pos p~1) 2 (Z.pos p) 1); lia.
  - apply (Z.div_unique (Z.pos p~0) 2 (Z.pos p) 0); lia.
  - reflexivity.
Qed.

Lemma iter_shr_1_m (p : positive) (mrs : shr_record) :
  0 <= shr_m mrs ->
  shr_m (iter_pos shr_1 p mrs) = shr_m mrs / 2 ^ Z.pos p.
Proof.
  revert mrs. induction p as [p IH|p IH|]; intros mrs Hm; simpl iter_pos.
  - assert (H1 : 0 <= shr_m (shr_1 mrs))
      by (rewrite shr_1_m by assumption; apply Z.div_pos; lia).
    assert (H2 : 0 <= shr_m (iter_pos shr_1 p (shr_1 mrs)))
      by (rewrite IH by assumption; apply Z.div_pos; lia).
    rewrite IH, IH, shr_1_m by assumption.
    rewrite !Z.div_div by lia. f_equal.
    rewrite Pos2Z.inj_xI.
    replace (2 * Z.pos p + 1) with (1 + Z.pos p + Z.pos p) by lia.
    rewrite !Z.pow_add_r by lia. change (2 ^ 1) with 2. ring.
  - assert (H2 : 0 <= shr_m (iter_pos shr_1 p mrs))
      by (rewrite IH by assumption; apply Z.div_pos; lia).
    rewrite IH, IH by assumption.
    rewrite !Z.div_div by lia. f_equal.
    rewrite Pos2Z.inj_xO. rewrite <- Z.pow_add_r by lia. f_equal. lia.
  - rewrite shr_1_m by assumption. reflexivity.
Qed.

Lemma shr_spec (mrs : shr_record) (e n : Z) :
  0 <= shr_m mrs ->
  shr_m (fst (shr mrs e n)) = shr_m mrs / 2 ^ Z.max n 0
  /\ snd (shr mrs e n) = e + Z.max n 0.
Proof.
  intros Hm. destruct n as [|p|p]; simpl shr; simpl fst; simpl snd.
  - rewrite Z.div_1_r. split; lia.
  - rewrite iter_shr_1_m by assumption.
    replace (Z.max (Z.pos p) 0) with (Z.pos p) by lia. split; reflexivity.
  - replace (Z.max (Z.neg p) 0) with 0 by lia. rewrite Z.div_1_r. split; lia.
Qed.

Lemma shr_record_of_loc_m (m : Z) (l : location) :
  shr_m (shr_record_of_loc m l) = m.
Proof. destruct l as [|[]]; reflexivity. Qed.

Lemma round_nearest_even_bounds (m : Z) (l : location) :
  m <= round_nearest_even m l <= m + 1.
Proof.
  destruct l as [|[]]; simpl; try lia. destruct (Z.even m); lia.
Qed.

Lemma shr_fexp_spec (m e : Z) (l : location) :
  0 <= m ->
  let n := Z.max (fexp PyFloat.prec PyFloat.emax (Zdigits2 m + e) - e) 0 in
  shr_m (fst (shr_fexp PyFloat.prec PyFloat.emax m e l)) = m / 2 ^ n
  /\ snd (shr_fexp PyFloat.prec PyFloat.emax m e l) = e + n.
Proof.
  intros Hm n. unfold shr_fexp.
  pose proof (shr_spec (shr_record_of_loc m l) e
                (fexp PyFloat.prec PyFloat.emax (Zdigits2 m + e) - e)) as H.
  rewrite shr_record_of_loc_m in H. apply H. assumption.
Qed.

(** Rounding a non-negative mantissa of at most 63 bits with a small
    non-positive exponent gives zero or a positive finite float. *)
Lemma binary_round_aux_finite (mx ex : Z) (lx : location) :
  0 <= mx < 2 ^ 63 -> -100 <= ex <= 0 ->
  binary_round_aux PyFloat.prec PyFloat.emax false mx ex lx = S754_zero false
  \/ exists m e,
       binary_round_aux PyFloat.prec PyFloat.emax false mx ex lx =
       S754_finite false m e.
Proof.
  intros Hm He. unfold binary_round_aux.
  pose proof (shr_fexp_spec mx ex lx (proj1 Hm)) as [M1 E1].
  destruct (shr_fexp PyFloat.prec PyFloat.emax mx ex lx) as [mrs' e'].
  cbn [fst snd] in M1, E1.
  set (m1 := round_nearest_even (shr_m mrs') (loc_of_shr_record mrs')).
  pose proof (round_nearest_even_bounds (shr_m mrs') (loc_of_shr_record mrs'))
    as B1. fold m1 in B1.
  assert (D0 : 0 <= Zdigits2 mx <= 63)
    by (split; [apply Zdigits2_nonneg | apply Zdigits2_le; lia]).
  assert (S1 : 0 <= shr_m mrs' <= mx).
  { rewrite M1. split; [apply Z.div_pos; lia|].
    apply Z.div_le_upper_bound; [lia|].
    assert (1 <= 2 ^ Z.max
              (fexp PyFloat.prec PyFloat.emax (Zdigits2 mx + ex) - ex) 0)
      by (apply (Z.pow_le_mono_r 2 0); lia).
    nia. }
  assert (Hm1 : 0 <= m1 < 2 ^ 64) by (change (2 ^ 64) with (2 * 2 ^ 63); lia).
  pose proof (shr_fexp_spec m1 e' loc_Exact (proj1 Hm1)) as [M2 E2].
  destruct (shr_fexp PyFloat.prec PyFloat.emax m1 e' loc_Exact) as [mrs'' e''].
  cbn [fst snd] in M2, E2.
  assert (D1 : 0 <= Zdigits2 m1 <= 64)
    by (split; [apply Zdigits2_nonneg | apply Zdigits2_le; lia]).
  assert (S2 : 0 <= shr_m mrs'') by (rewrite M2; apply Z.div_pos; lia).
  unfold fexp, emin, PyFloat.prec, PyFloat.emax in *.
  destruct (shr_m mrs'') as [|p|p]; [left; reflexivity| |lia].
  right.
  replace (e'' <=? 1024 - 53) with true by (symmetry; apply Z.leb_le; lia).
  eauto.
Qed.

Lemma div_core_256 (p : positive) :
  let d := Zdigits2 (Z.pos p) in
  let e := Z.min (d - 62) 0 in
  SFdiv_core_binary PyFloat.prec PyFloat.emax (Z.pos p) 0 256 0 =
  (Z.pos p * 2 ^ (- e) / 256, e,
   new_location 256 ((Z.pos p * 2 ^ (- e)) mod 256)).
Proof.
  intros d e. unfold SFdiv_core_binary. fold d.
  change (Zdigits2 256) with 9.
  assert (Hd : 0 < d) by (unfold d; simpl; lia).
  replace (Z.min (fexp PyFloat.prec PyFloat.emax (d + 0 - (9 + 0))) (0 - 0))
    with e by (unfold fexp, emin, PyFloat.prec, PyFloat.emax, e; lia).
  replace (0 - 0 - e) with (- e) by lia.
  assert (Hm : match - e with
               | 0 => Z.pos p
               | Z.pos _ => Z.shiftl (Z.pos p) (- e)
               | Z.neg _ => 0
               end = Z.pos p * 2 ^ (- e)).
  { assert (0 <= - e) by (unfold e; lia).
    destruct (- e) as [|s|s] eqn:Es; [simpl; lia| |lia].
    apply Z.shiftl_mul_pow2. lia. }
  rewrite Hm. clear Hm.
  unfold Z.div, Z.modulo.
  destruct (Z.div_eucl (Z.pos p * 2 ^ (- e)) 256) as [q r].
  reflexivity.
Qed.

Lemma truediv_256_pos (p : positive) :
  PyFloat.truediv (Z.pos p) 256 =
  let e := Z.min (Zdigits2 (Z.pos p) - 62) 0 in
  match binary_round_aux PyFloat.prec PyFloat.emax false
          (Z.pos p * 2 ^ (- e) / 256) e
          (new_location 256 ((Z.pos p * 2 ^ (- e)) mod 256)) with
  | S754_infinity _ => Raise OverflowError
  | f => Ok f
  end.
Proof.
  unfold PyFloat.truediv.
  change (256 =? 0) with false. change (Z.pos p =? 0) with false.
  change (Z.abs (Z.pos p)) with (Z.pos p). change (Z.abs 256) with 256.
  rewrite div_core_256. reflexivity.
Qed.

Lemma truediv_256_finite (p : positive) :
  Z.pos p < 2 ^ 63 ->
  PyFloat.truediv (Z.pos p) 256 = Ok (S754_zero false)
  \/ exists m e, PyFloat.truediv (Z.pos p) 256 = Ok (S754_finite false m e).
Proof.
  intros Hp. rewrite truediv_256_pos. cbv zeta.
  pose proof (Zdigits2_bounds p) as [Blo Bhi].
  set (d := Zdigits2 (Z.pos p)) in *.
  assert (Hd : 0 < d) by (unfold d; simpl; lia).
  set (e := Z.min (d - 62) 0).
  assert (Hm : 0 < Z.pos p * 2 ^ (- e) < 2 ^ 63).
  { destruct (Z.min_spec (d - 62) 0) as [[H1 H2]|[H1 H2]]; fold e in H2;
      rewrite H2.
    - replace (- (d - 62)) with (62 - d) by lia.
      assert (2 ^ d * 2 ^ (62 - d) = 2 ^ 62)
        by (rewrite <- Z.pow_add_r by lia; f_equal; lia).
      assert (0 < 2 ^ (62 - d)) by (apply Z.pow_pos_nonneg; lia).
      change (2 ^ 63) with (2 * 2 ^ 62). nia.
    - simpl. lia. }
  assert (Hq : 0 <= Z.pos p * 2 ^ (- e) / 256 < 2 ^ 63).
  { split; [apply Z.div_pos; lia|].
    apply Z.div_lt_upper_bound; lia. }
  assert (He : -100 <= e <= 0) by (unfold e; lia).
  destruct (binary_round_aux_finite _ _
              (new_location 256 ((Z.pos p * 2 ^ (- e)) mod 256)) Hq He)
    as [-> | (m & e1 & ->)]; [left; reflexivity | right; eauto].
Qed.

Lemma math_floor_nonneg (f : spec_float) :
  f = S754_zero false \/ (exists m e, f = S754_finite false m e) ->
  exists n, PyFloat.math_floor f = Ok n /\ 0 <= n.
Proof.
  intros [-> | (m & e & ->)]; unfold PyFloat.math_floor.
  - exists 0. split; [reflexivity | lia].
  - eexists. split; [reflexivity|].
    destruct (0 <=? e) eqn:He.
    + apply Z.mul_nonneg_nonneg; [lia | apply Z.pow_nonneg; lia].
    + apply Z.leb_gt in He. apply Z.div_pos; [lia|].
      apply Z.pow_pos_nonneg; lia.
Qed.

Lemma calc_total (L : Z) :
  0 <= L <= PY_SSIZE_T_MAX ->
  exists n, _calc_num_required_packets L = Ok n /\ 0 <= n.
Proof.
  intros [H0 Hmax]. unfold PY_SSIZE_T_MAX in Hmax.
  destruct L as [|p|p]; [exists 0; split; [reflexivity | lia]| |lia].
  unfold _calc_num_required_packets, PyFloat.mod_, MAX_SIZE.
  change (256 =? 0) with false. cbv iota. cbn [rbind].
  assert (Hf : PyFloat.truediv (Z.pos p) 256 = Ok (S754_zero false)
    \/ exists m e, PyFloat.truediv (Z.pos p) 256 = Ok (S754_finite false m e))
    by (apply truediv_256_finite; lia).
  assert (exists f, PyFloat.truediv (Z.pos p) 256 = Ok f
                    /\ exists n, PyFloat.math_floor f = Ok n /\ 0 <= n)
    as (f & -> & n & Hn & Hn0).
  { destruct Hf as [E | (m & e & E)]; rewrite E; eexists;
      (split; [reflexivity|]); apply math_floor_nonneg; eauto. }
  destruct (Z.pos p mod 256 =? 0); cbn [rbind]; rewrite Hn; cbn [rbind].
  - eauto.
  - exists (n + 1). split; [reflexivity | lia].
Qed.

Lemma round_exact_54 (p1 : positive) (d : Z) :
  Zdigits2 (Z.pos p1) = 53 -> 0 < d <= 53 ->
  binary_round_aux PyFloat.prec PyFloat.emax false (Z.pos p1~0) (d - 62)
    loc_Exact = S754_finite false p1 (d - 61).
Proof.
  intros H53 Hd.
  assert (H54 : Zdigits2 (Z.pos p1~0) = 54).
  { change (Zdigits2 (Z.pos p1~0))
      with (Z.pos (Pos.succ (digits2_pos p1))).
    rewrite Pos2Z.inj_succ. change (Z.pos (digits2_pos p1))
      with (Zdigits2 (Z.pos p1)). lia. }
  unfold binary_round_aux, shr_fexp. rewrite H54.
  replace (fexp PyFloat.prec PyFloat.emax (54 + (d - 62)) - (d - 62)) with 1
    by (unfold fexp, emin, PyFloat.prec, PyFloat.emax; lia).
  cbn [shr shr_record_of_loc iter_pos shr_1 shr_m loc_of_shr_record
       round_nearest_even orb].
  rewrite H53.
  replace (d - 62 + 1) with (d - 61) by lia.
  replace (fexp PyFloat.prec PyFloat.emax (53 + (d - 61)) - (d - 61)) with 0
    by (unfold fexp, emin, PyFloat.prec, PyFloat.emax; lia).
  cbn [shr shr_record_of_loc shr_m].
  replace (d - 61 <=? PyFloat.emax - PyFloat.prec) with true
    by (symmetry; apply Z.leb_le; unfold PyFloat.prec, PyFloat.emax; lia).
  reflexivity.
Qed.

Lemma truediv_256_exact (p : positive) :
  Z.pos p < 2 ^ 53 ->
  exists m e,
    PyFloat.truediv (Z.pos p) 256 = Ok (S754_finite false m e)
    /\ e < 0 /\ Z.pos m = Z.pos p * 2 ^ (- e - 8).
Proof.
  intros Hp. rewrite truediv_256_pos. cbv zeta.
  pose proof (Zdigits2_bounds p) as [Blo Bhi].
  assert (Hd53 : Zdigits2 (Z.pos p) <= 53) by (apply Zdigits2_le; lia).
  set (d := Zdigits2 (Z.pos p)) in *.
  assert (Hd : 0 < d) by (unfold d; simpl; lia).
  replace (Z.min (d - 62) 0) with (d - 62) by lia.
  replace (- (d - 62)) with (62 - d) by lia.
  assert (P62 : 2 ^ (62 - d) = 2 ^ (54 - d) * 256)
    by (change 256 with (2 ^ 8); rewrite <- Z.pow_add_r by lia; f_equal; lia).
  assert (P54 : 2 ^ (54 - d) = 2 * 2 ^ (53 - d))
    by (rewrite <- Z.pow_succ_r by lia; f_equal; lia).
  rewrite P62, Z.mul_assoc, Z.div_mul, Z.mod_mul by lia.
  change (new_location 256 0) with loc_Exact.
  assert (P53 : 2 ^ (d - 1) * 2 ^ (53 - d) = 2 ^ 52)
    by (rewrite <- Z.pow_add_r by lia; f_equal; lia).
  assert (P53' : 2 ^ d * 2 ^ (53 - d) = 2 ^ 53)
    by (rewrite <- Z.pow_add_r by lia; f_equal; lia).
  assert (Hpos : 0 < 2 ^ (53 - d)) by (apply Z.pow_pos_nonneg; lia).
  destruct (Z.pos p * 2 ^ (53 - d)) as [|p1|p1] eqn:E1; try lia.
  assert (H53 : Zdigits2 (Z.pos p1) = 53).
  { apply Zdigits2_unique. rewrite <- E1. change (53 - 1) with 52. nia. }
  replace (Z.pos p * 2 ^ (54 - d)) with (Z.pos p1~0)
    by (rewrite P54, Pos2Z.inj_xO, <- E1; ring).
  rewrite round_exact_54 by (assumption || lia).
  exists p1, (d - 61). split; [reflexivity|]. split; [lia|].
  rewrite <- E1. f_equal. f_equal. lia.
Qed.

Lemma calc_exact (L : Z) :
  0 <= L < 2 ^ 53 ->
  _calc_num_required_packets L = Ok (Spec.ceil_div L 256).
Proof.
  intros [H0 Hmax].
  destruct L as [|p|p]; [reflexivity| |lia].
  unfold _calc_num_required_packets, PyFloat.mod_, MAX_SIZE.
  change (256 =? 0) with false. cbv iota. cbn [rbind].
  destruct (truediv_256_exact p Hmax) as (m & e & -> & He & Hm).
  assert (He8 : 0 <= - e - 8)
    by (destruct (Z.le_gt_cases 0 (- e - 8));
        [assumption | rewrite Z.pow_neg_r in Hm by lia; lia]).
  assert (F : PyFloat.math_floor (S754_finite false m e) = Ok (Z.pos p / 256)).
  { unfold PyFloat.math_floor.
    replace (0 <=? e) with false by (symmetry; apply Z.leb_gt; lia).
    rewrite Hm. f_equal.
    replace (2 ^ (- e)) with (256 * 2 ^ (- e - 8))
      by (change 256 with (2 ^ 8); rewrite <- Z.pow_add_r by lia; f_equal; lia).
    apply Z.div_mul_cancel_r; [lia|].
    assert (0 < 2 ^ (- e - 8)) by (apply Z.pow_pos_nonneg; lia). lia. }
  unfold Spec.ceil_div.
  destruct (Z.pos p mod 256 =? 0) eqn:Er; cbn [rbind]; rewrite F; cbn [rbind];
    f_equal.
  - apply Z.eqb_eq in Er.
    rewrite (Z.div_mod (Z.pos p) 256) at 2 by lia. rewrite Er, Z.add_0_r.
    rewrite <- Z.mul_opp_r, Z.mul_comm, Z.div_mul by lia. lia.
  - apply Z.eqb_neq in Er.
    pose proof (Z.div_mod (Z.pos p) 256 ltac:(lia)) as DM.
    pose proof (Z.mod_pos_bound (Z.pos p) 256 ltac:(lia)) as MB.
    symmetry. apply Z.opp_inj. rewrite Z.opp_involutive.
    symmetry. apply (Z.div_unique _ _ _ (256 - Z.pos p mod 256)); lia.
Qed.

End PacketCount.

(** ** The handshake and the per-packet acknowledgement *)

Import BitStreamTransferProtocol.

Section Protocol.

Lemma bytes_eqb_single (c c' : byte) : bytes_eqb [c] [c'] = Byte.eqb c c'.
Proof.
  unfold bytes_eqb.
  destruct (list_eq_dec byte_eq_dec [c] [c']) as [E|N].
  - injection E as ->. symmetry. apply Byte.byte_dec_lb. reflexivity.
  - destruct (Byte.eqb c c') eqn:E; [|reflexivity].
    apply Byte.byte_dec_bl in E. subst. contradiction.
Qed.

Lemma contains_singletons (cs : list byte) (c : byte) :
  contains (map (fun x => [x]) cs) [c] = existsb (Byte.eqb c) cs.
Proof.
  unfold contains. induction cs as [|x cs IH]; [reflexivity|].
  cbn [map existsb]. rewrite bytes_eqb_single, IH. reflexivity.
Qed.

Lemma wait_for_chars_from_first (cs : list byte) (rx : bytes) (w : World) :
  _wait_for_chars_from (map (fun x => [x]) cs) rx w =
  match Spec.first_of cs rx with
  | Some (c, rest) => Returned [c] (set_incoming rest w)
  | None => Blocked (set_incoming [] w)
  end.
Proof.
  induction rx as [|c rx IH]; [reflexivity|].
  cbn [_wait_for_chars_from Spec.first_of].
  rewrite contains_singletons.
  destruct (existsb (Byte.eqb c) cs); [reflexivity | exact IH].
Qed.

Lemma wait_for_chars_from_set_incoming
    (chars : list bytes) (rx rx' : bytes) (w : World) :
  _wait_for_chars_from chars rx (set_incoming rx' w) =
  _wait_for_chars_from chars rx w.
Proof.
  induction rx as [|c rx IH]; cbn [_wait_for_chars_from]; [reflexivity|].
  destruct (contains chars [c]); [reflexivity | exact IH].
Qed.

(** [_wait_for_chars] satisfies the equation of the source loop: read
    one byte, return it if it is wanted, otherwise go round again. *)
Lemma wait_for_chars_unfold (chars : list bytes) (w : World) :
  _wait_for_chars chars w =
  bind SerialPort.read
    (fun ch => if contains chars ch then ret ch else _wait_for_chars chars) w.
Proof.
  unfold _wait_for_chars, bind, SerialPort.read.
  destruct w as [wr rx crc d a]. cbn [sp_incoming].
  destruct rx as [|c rest]; [reflexivity|].
  cbn [_wait_for_chars_from]. destruct (contains chars [c]); [reflexivity|].
  cbn [sp_incoming set_incoming].
  symmetry. apply (wait_for_chars_from_set_incoming chars rest rest).
Qed.

Lemma set_incoming_advance (w : World) (chunks : list bytes) (rx rx' : bytes) :
  set_incoming rx' (advance w chunks rx) = advance w chunks rx'.
Proof. reflexivity. Qed.

Lemma advance_advance (w : World) (c1 c2 : list bytes) (rx1 rx2 : bytes) :
  advance (advance w c1 rx1) c2 rx2 = advance w (c1 ++ c2) rx2.
Proof. unfold advance. cbn. rewrite app_assoc. reflexivity. Qed.

Lemma frame_eq (pk : Packet) : PacketM.as_bytearray pk = Ok (frame pk).
Proof. unfold frame. rewrite as_bytearray_ok. reflexivity. Qed.

Lemma frame_init (b : Z) (p : bytes) (pk : Packet) :
  PacketM.__init__ b p = Ok pk -> frame pk = Spec.wire_layout b p.
Proof.
  intros E. pose proof (serialize_ok b p) as S. rewrite E in S.
  cbn [rbind] in S. rewrite frame_eq in S. congruence.
Qed.

Lemma send_packet_run (pk : Packet) (w : World) :
  send_packet pk w =
  match Spec.first_of [x06; x15] (sp_incoming w) with
  | Some (c, rest) => Returned (Byte.eqb c x06) (advance w [frame pk] rest)
  | None => Blocked (advance w [frame pk] [])
  end.
Proof.
  unfold send_packet, bind, lift. rewrite frame_eq.
  unfold SerialPort.write, _wait_for_ack, bind, _wait_for_chars.
  cbn [sp_incoming].
  change [value ACK; value NAK] with (map (fun x => [x]) [x06; x15]).
  rewrite wait_for_chars_from_first.
  destruct (Spec.first_of [x06; x15] (sp_incoming w)) as [[c rest]|].
  - unfold ret. change (value ACK) with [x06]. rewrite bytes_eqb_single.
    reflexivity.
  - reflexivity.
Qed.

Lemma start_transmission_run (w : World) :
  start_transmission w =
  match Spec.first_of [x43; x15] (sp_incoming w) with
  | Some (c, rest) =>
      Returned tt
        {| sp_written := sp_written w ++ [value START_TRANSMISSION];
           sp_incoming := rest; _crc_mode := Some [c];
           _data := _data w; _addr_int := _addr_int w |}
  | None => Blocked (advance w [value START_TRANSMISSION] [])
  end.
Proof.
  unfold start_transmission, _write, bind, lift. cbn [_make_bytes map concat].
  unfold SerialPort.write, _check_crc_mode, _wait_for_chars.
  cbn [sp_incoming].
  change [value C; value NAK] with (map (fun x => [x]) [x43; x15]).
  rewrite wait_for_chars_from_first.
  destruct (Spec.first_of [x43; x15] (sp_incoming w)) as [[c rest]|];
    reflexivity.
Qed.

Lemma read_until_from_first (line rx : bytes) (w : World) :
  match Spec.first_of [x06] rx with
  | Some (_, rest) =>
      exists l, SerialPort.read_until_from [x06] line rx w =
                Returned l (set_incoming rest w)
  | None => SerialPort.read_until_from [x06] line rx w =
            Blocked (set_incoming [] w)
  end.
Proof.
  revert line. induction rx as [|c rx IH]; intros line; [reflexivity|].
  cbn [SerialPort.read_until_from Spec.first_of existsb].
  rewrite bytes_eqb_single, orb_false_r.
  destruct (Byte.eqb c x06); [eexists; reflexivity | apply IH].
Qed.

Lemma stop_transmission_run (w : World) :
  stop_transmission w =
  match Spec.first_of [x06] (sp_incoming w) with
  | Some (_, rest) => Returned tt (advance w [value EOT] rest)
  | None => Blocked (advance w [value EOT] [])
  end.
Proof.
  unfold stop_transmission, _write, bind, lift. cbn [_make_bytes map concat].
  unfold SerialPort.write, SerialPort.read_until. cbn [sp_incoming].
  match goal with
  | |- context [SerialPort.read_until_from _ _ _ ?w'] =>
      pose proof (read_until_from_first [] (sp_incoming w) w') as H
  end.
  change (value ACK) with [x06].
  destruct (Spec.first_of [x06] (sp_incoming w)) as [[c rest]|].
  - destruct H as [l ->]. reflexivity.
  - rewrite H. reflexivity.
Qed.

Lemma first_of_split (cs : list byte) (rx : bytes) :
  Exists (fun c => In c cs) rx ->
  exists junk c rest,
    rx = junk ++ c :: rest
    /\ Forall (fun x => ~ In x cs) junk
    /\ In c cs
    /\ Spec.first_of cs rx = Some (c, rest).
Proof.
  induction rx as [|x rx IH]; intros H; [inversion H|].
  cbn [Spec.first_of].
  destruct (existsb (Byte.eqb x) cs) eqn:E.
  - apply existsb_exists in E as (y & Hy & Exy).
    apply Byte.byte_dec_bl in Exy. subst y.
    exists [], x, rx. repeat split; auto.
  - assert (Hx : ~ In x cs).
    { intros Hin. assert (existsb (Byte.eqb x) cs = true) as T
        by (apply existsb_exists; exists x; split;
            [assumption | apply Byte.byte_dec_lb; reflexivity]).
      congruence. }
    inversion H as [? ? Hh | ? ? Ht]; subst; [contradiction|].
    destruct (IH Ht) as (junk & c & rest & -> & Hj & Hc & Hf).
    exists (x :: junk), c, rest. repeat split; auto.
Qed.

Lemma num_required_run (w : World) (n : Z) :
  _calc_num_required_packets (Py.len (_data w)) = Ok n ->
  _num_required_packets_int w = Returned n w.
Proof.
  intros E. unfold _num_required_packets_int, lift. rewrite E. reflexivity.
Qed.

Lemma slice_window {A} (l : list A) (lo hi : Z) :
  0 <= lo <= hi ->
  Py.slice l lo hi = firstn (Z.to_nat (hi - lo)) (skipn (Z.to_nat lo) l).
Proof.
  intros H. unfold Py.slice, Py.clamp_index, Py.len.
  replace (lo <? 0) with false by (symmetry; apply Z.ltb_ge; lia).
  replace (hi <? 0) with false by (symmetry; apply Z.ltb_ge; lia).
  set (n := length l).
  destruct (Z.le_gt_cases (Z.of_nat n) lo) as [Hge|Hlt].
  - rewrite !skipn_all2 by (fold n; lia). rewrite !firstn_nil. reflexivity.
  - replace (Z.min lo (Z.of_nat n)) with lo by lia.
    destruct (Z.le_gt_cases hi (Z.of_nat n)) as [Hh|Hh].
    + replace (Z.min hi (Z.of_nat n)) with hi by lia. reflexivity.
    + replace (Z.min hi (Z.of_nat n)) with (Z.of_nat n) by lia.
      rewrite !firstn_all2; [reflexivity| |]; rewrite length_skipn; fold n; lia.
Qed.

Lemma slice_chunk (data : bytes) (i : nat) :
  Py.slice data (Z.of_nat i * MAX_SIZE) ((Z.of_nat i + 1) * MAX_SIZE) =
  Spec.chunk data i.
Proof.
  unfold MAX_SIZE, Spec.chunk. rewrite slice_window by lia.
  f_equal; [|f_equal]; lia.
Qed.

Lemma send_one_run (i : nat) (w : World) (n : Z) :
  _calc_num_required_packets (Py.len (_data w)) = Ok n ->
  _send_one (Z.of_nat i) w =
  match Spec.first_of [x06; x15] (sp_incoming w) with
  | Some (_, rest) =>
      Returned tt
        (advance w [Spec.wire_layout (Z.of_nat i + 1) (Spec.chunk (_data w) i)]
           rest)
  | None =>
      Blocked
        (advance w [Spec.wire_layout (Z.of_nat i + 1) (Spec.chunk (_data w) i)]
           [])
  end.
Proof.
  intros E. unfold _send_one, bind. rewrite (num_required_run w n E).
  rewrite slice_chunk, init_ok. unfold lift.
  rewrite send_packet_run.
  rewrite (frame_init (Z.of_nat i + 1) (Spec.chunk (_data w) i))
    by apply init_ok.
  destruct (Spec.first_of [x06; x15] (sp_incoming w)) as [[c rest]|];
    reflexivity.
Qed.

Lemma for_each_send_run (n : Z) (k start : nat) (w : World) :
  _calc_num_required_packets (Py.len (_data w)) = Ok n ->
  match Spec.after_replies k (sp_incoming w) with
  | Some rest =>
      for_each (map Z.of_nat (seq start k)) _send_one w =
      Returned tt
        (advance w
           (map (fun i => Spec.wire_layout (Z.of_nat i + 1)
                            (Spec.chunk (_data w) i)) (seq start k))
           rest)
  | None =>
      exists w' more,
        for_each (map Z.of_nat (seq start k)) _send_one w = Blocked w'
        /\ sp_written w' = sp_written w ++ more
  end.
Proof.
  revert start w. induction k as [|k IH]; intros start w E.
  - cbn. unfold ret, advance. rewrite app_nil_r. destruct w; reflexivity.
  - cbn [seq map for_each Spec.after_replies]. unfold bind.
    rewrite (send_one_run start w n E).
    destruct (Spec.first_of [x06; x15] (sp_incoming w)) as [[c rest]|];
      [|eexists; eexists; split; reflexivity].
    specialize
      (IH (S start)
          (advance w
             [Spec.wire_layout (Z.of_nat start + 1)
                (Spec.chunk (_data w) start)] rest) E).
    cbn [sp_incoming advance] in IH.
    destruct (Spec.after_replies k rest) as [rest'|].
    + rewrite IH. rewrite advance_advance. reflexivity.
    + destruct IH as (w' & more & -> & Hw). cbn [sp_written advance] in Hw.
      exists w'. eexists. split; [reflexivity|].
      rewrite Hw, <- app_assoc. reflexivity.
Qed.

Lemma send_num_packets_and_address_run (w : World) (n : Z) :
  _calc_num_required_packets (Py.len (_data w)) = Ok n ->
  _send_num_packets_and_address w =
  match Spec.first_of [x06; x15] (sp_incoming w) with
  | Some (_, rest) =>
      Returned tt
        (advance w
           [Spec.wire_layout 0
              (Spec.big_endian 4 (_addr_int w) ++ Spec.big_endian 4 n)] rest)
  | None =>
      Blocked
        (advance w
           [Spec.wire_layout 0
              (Spec.big_endian 4 (_addr_int w) ++ Spec.big_endian 4 n)] [])
  end.
Proof.
  intros E.
  unfold _send_num_packets_and_address, _address, _num_required_packets, bind.
  rewrite int_to_bytes_ok. unfold lift at 1.
  rewrite (num_required_run w n E), int_to_bytes_ok. unfold lift at 1.
  rewrite init_ok. unfold lift.
  rewrite send_packet_run.
  rewrite (frame_init 0 (Spec.big_endian (Z.to_nat 4) (_addr_int w)
                           ++ Spec.big_endian (Z.to_nat 4) n))
    by apply init_ok.
  change (Z.to_nat 4) with 4%nat.
  destruct (Spec.first_of [x06; x15] (sp_incoming w)) as [[c rest]|];
    reflexivity.
Qed.

Lemma upload_run (contents : bytes) (address : Z) (w : World) (n : Z) :
  _calc_num_required_packets (Py.len contents) = Ok n ->
  match Spec.upload_replies (Z.to_nat n) (sp_incoming w) with
  | Some (m, rest) =>
      upload_bitstream_to contents address w =
      Returned tt
        {| sp_written := sp_written w ++ Spec.upload_sequence contents address n;
           sp_incoming := rest; _crc_mode := Some [m];
           _data := contents; _addr_int := address |}
  | None =>
      exists w',
        upload_bitstream_to contents address w = Blocked w'
        /\ (Spec.first_of [x43; x15] (sp_incoming w) <> None ->
            exists more,
              sp_written w' =
              sp_written w
                ++ [value START_TRANSMISSION;
                    Spec.wire_layout 0
                      (Spec.big_endian 4 address ++ Spec.big_endian 4 n)]
                ++ more)
  end.
Proof.
  intros E.
  unfold upload_bitstream_to, Spec.upload_replies, _start_transmission,
    _stop_transmission, store, bind.
  rewrite start_transmission_run. cbn [sp_incoming].
  destruct (Spec.first_of [x43; x15] (sp_incoming w)) as [[m r1]|];
    [|eexists; split; [reflexivity | congruence]].
  match goal with
  | |- context [_num_required_packets_int ?w0] => set (w1 := w0)
  end.
  assert (E1 : _calc_num_required_packets (Py.len (_data w1)) = Ok n)
    by exact E.
  rewrite (num_required_run w1 n E1).
  rewrite (send_num_packets_and_address_run w1 n E1).
  cbn [Spec.after_replies]. cbn [sp_incoming w1].
  destruct (Spec.first_of [x06; x15] r1) as [[c r2]|];
    [|eexists; split; [reflexivity|]; intros _; exists [];
      cbn [sp_written advance w1]; rewrite <- app_assoc; reflexivity].
  match goal with
  | |- context [_send_bitfile_content ?w0] => set (w2 := w0)
  end.
  assert (E2 : _calc_num_required_packets (Py.len (_data w2)) = Ok n)
    by exact E.
  unfold _send_bitfile_content, bind.
  rewrite (num_required_run w2 n E2). unfold Py.range.
  pose proof (for_each_send_run n (Z.to_nat n) 0 w2 E2) as F.
  cbn [sp_incoming w2 advance] in F.
  destruct (Spec.after_replies (Z.to_nat n) r2) as [r3|].
  2:{ destruct F as (w' & more & -> & Hw). exists w'.
      split; [reflexivity|]. intros _. exists more.
      rewrite Hw. cbn [sp_written advance w2 w1].
      rewrite <- !app_assoc. reflexivity. }
  rewrite F. rewrite stop_transmission_run. cbn [sp_incoming advance].
  destruct (Spec.first_of [x06] r3) as [[c' r4]|].
  2:{ eexists. split; [reflexivity|]. intros _. eexists.
      cbn [sp_written advance w2 w1]. rewrite <- !app_assoc.
      cbn [app]. reflexivity. }
  unfold advance, Spec.upload_sequence. cbn [sp_written sp_incoming _crc_mode
    _data _addr_int w2 w1 advance].
  rewrite <- !app_assoc. reflexivity.
Qed.

End Protocol.

(** C7. For every packet and every reply stream that contains an ACK
    (0x06) or a NAK (0x15), [send_packet] writes the packet's serialized
    bytes once, consumes the replies up to and including the first ACK
    or NAK (the bytes before it are dropped, the bytes after it stay
    unread), and returns true exactly when that byte is ACK; nothing is
    written again, so there is no retry. *)
Theorem send_packet_first_reply (pk : Packet) (w : World) :
  Exists (fun c => c = x06 \/ c = x15) (sp_incoming w) ->
  exists junk c rest,
    sp_incoming w = junk ++ c :: rest
    /\ Forall (fun x => x <> x06 /\ x <> x15) junk
    /\ (c = x06 \/ c = x15)
    /\ PacketM.as_bytearray pk = Ok (frame pk)
    /\ send_packet pk w =
       Returned (Byte.eqb c x06) (advance w [frame pk] rest)
    /\ (Byte.eqb c x06 = true <-> c = x06).
Proof.
  intros H.
  assert (H' : Exists (fun c => In c [x06; x15]) (sp_incoming w)).
  { apply Exists_exists in H as (c & Hin & Hc). apply Exists_exists.
    exists c. split; [assumption|]. cbn. intuition. }
  destruct (first_of_split _ _ H') as (junk & c & rest & E & Hj & Hc & Hf).
  exists junk, c, rest. split; [exact E|]. split.
  - apply Forall_impl with (2 := Hj). cbn. intros a Ha. split; intros ->; tauto.
  - split; [cbn in Hc; intuition|]. split; [apply frame_eq|]. split.
    + rewrite send_packet_run, Hf. reflexivity.
    + split; [apply Byte.byte_dec_bl | apply Byte.byte_dec_lb].
Qed.

Lemma send_packet_first_reply_witness :
  exists junk c rest,
    [x00; x15; x06] = junk ++ c :: rest
    /\ Forall (fun x => x <> x06 /\ x <> x15) junk
    /\ (c = x06 \/ c = x15)
    /\ PacketM.as_bytearray (mkPacket [x00; x01] [x01] [x2a]) =
       Ok (frame (mkPacket [x00; x01] [x01] [x2a]))
    /\ send_packet (mkPacket [x00; x01] [x01] [x2a])
         (mkWorld [] [x00; x15; x06] None [] 0) =
       Returned (Byte.eqb c x06)
         (advance (mkWorld [] [x00; x15; x06] None [] 0)
            [frame (mkPacket [x00; x01] [x01] [x2a])] rest)
    /\ (Byte.eqb c x06 = true <-> c = x06).
Proof.
  apply (send_packet_first_reply (mkPacket [x00; x01] [x01] [x2a])
           (mkWorld [] [x00; x15; x06] None [] 0)).
  simpl. apply Exists_cons_tl, Exists_cons_hd. right. reflexivity.
Defined.

(** C3 (the code departs from the claim). The packet count is computed
    with a float division, so it is ceil(L/256) only while L/256 is
    exactly representable: at L = 2^53 + 255 the quotient rounds up to
    2^45 + 1 and the code returns 2^45 + 2, one more than ceil(L/256);
    at L = 2^61 + 256 the quotient rounds down to 2^53 and the code
    returns one less.  The two values the claim singles out, L = 0 and
    L = 256, are right. *)
Theorem packet_count_float_rounding :
  _calc_num_required_packets (2 ^ 53 + 255) = Ok (2 ^ 45 + 2)
  /\ Spec.ceil_div (2 ^ 53 + 255) 256 = 2 ^ 45 + 1
  /\ _calc_num_required_packets (2 ^ 61 + 256) = Ok (2 ^ 53)
  /\ Spec.ceil_div (2 ^ 61 + 256) 256 = 2 ^ 53 + 1
  /\ _calc_num_required_packets 0 = Ok 0
  /\ _calc_num_required_packets 256 = Ok 1.
Proof. repeat split; vm_compute; reflexivity. Qed.

(** C4, as worded, fails: with no reply bytes at all the upload writes
    the start byte and then waits for ever, so the metadata packet and
    the end byte are never written. *)
Lemma upload_blocks_without_replies : ~ sequence_as_specified [] 3 [].
Proof.
  intros (n & Hn & H).
  specialize (H (mkWorld [] [] None [] 0) eq_refl).
  vm_compute in Hn. injection Hn as <-.
  vm_compute in H. discriminate H.
Qed.

(** C5, as worded, fails once the packet count needs more than 32
    bits: a file of 256 * (2^32 - 1) + 1 bytes has 2^32 packets, and the
    four count bytes of its metadata packet are 00 00 00 00. *)
Lemma metadata_count_wraps :
  ~ metadata_as_specified (repeat x00 (Z.to_nat 1099511627521)) 3.
Proof.
  assert (Hlen : Py.len (repeat x00 (Z.to_nat 1099511627521)) = 1099511627521)
    by (unfold Py.len; rewrite repeat_length; apply Z2Nat.id; discriminate).
  revert Hlen. generalize (repeat x00 (Z.to_nat 1099511627521)).
  intros data Hlen (n & ab & nb & pk & Hn & _ & Hnb & _ & _ & _ & _ & _ & _ & Hd).
  rewrite Hlen in Hn. vm_compute in Hn. injection Hn as <-.
  rewrite int_to_bytes_ok in Hnb. injection Hnb as <-.
  vm_compute in Hd. discriminate Hd.
Qed.

(** C5 (amended). For every target address a with 0 <= a < 2^32 and
    every file, the metadata packet has block id 0 and a payload of
    exactly 8 bytes: four bytes that are the big-endian encoding of a,
    then four bytes that are the big-endian encoding of the packet
    count modulo 2^32, which is the packet count itself whenever that
    is below 2^32.  It is what [_send_num_packets_and_address] writes,
    and in an upload it is the first chunk written after the start
    byte. *)
Theorem metadata_packet (contents : bytes) (a : Z) :
  0 <= a < 2 ^ 32 -> Py.len contents <= PY_SSIZE_T_MAX ->
  exists n pk,
    _calc_num_required_packets (Py.len contents) = Ok n /\ 0 <= n
    /\ (exists ab nb,
          PacketM.__init__ 0 (ab ++ nb) = Ok pk
          /\ _payload pk = ab ++ nb
          /\ int_to_bytes a 4 = Ok ab /\ int_to_bytes n 4 = Ok nb
          /\ Py.len ab = 4 /\ Py.int_from_bytes_big ab = a
          /\ Py.len nb = 4 /\ Py.int_from_bytes_big nb = n mod 2 ^ 32
          /\ (n < 2 ^ 32 -> Py.int_from_bytes_big nb = n))
    /\ Py.int_from_bytes_big (_block_number pk) = 0
    /\ Py.len (_payload pk) = 8
    /\ (forall w, _data w = contents -> _addr_int w = a ->
          sp_written (final_world (_send_num_packets_and_address w)) =
          sp_written w ++ [frame pk])
    /\ (forall w, Spec.first_of [x43; x15] (sp_incoming w) <> None ->
          exists more,
            sp_written (final_world (upload_bitstream_to contents a w)) =
            sp_written w ++ [value START_TRANSMISSION; frame pk] ++ more).
Proof.
  intros Ha Hlen.
  destruct (calc_total (Py.len contents)) as (n & Hn & Hn0);
    [unfold Py.len in *; lia|].
  set (payload := Spec.big_endian 4 a ++ Spec.big_endian 4 n).
  exists n, {| _block_number := Spec.big_endian 2 0;
               _start_of_header := [x01]; _payload := payload |}.
  assert (F : frame {| _block_number := Spec.big_endian 2 0;
                       _start_of_header := [x01]; _payload := payload |}
              = Spec.wire_layout 0 payload)
    by (apply frame_init, init_ok).
  split; [exact Hn|]. split; [exact Hn0|]. split.
  { exists (Spec.big_endian 4 a), (Spec.big_endian 4 n).
    split; [apply init_ok|]. split; [reflexivity|].
    split; [apply (int_to_bytes_ok a 4)|].
    split; [apply (int_to_bytes_ok n 4)|].
    unfold Py.len. rewrite !big_endian_length.
    split; [reflexivity|]. split.
    - apply big_endian_decode_small.
      change (256 ^ Z.of_nat 4) with (2 ^ 32). exact Ha.
    - split; [reflexivity|]. rewrite big_endian_decode.
      change (256 ^ Z.of_nat 4) with (2 ^ 32). split; [reflexivity|].
      intros Hn32. apply Z.mod_small. lia. }
  split; [reflexivity|]. split.
  { cbn [_payload]. unfold payload, Py.len.
    rewrite length_app, !big_endian_length. reflexivity. }
  split.
  - intros w Hd Ha'. rewrite F.
    rewrite (send_num_packets_and_address_run w n)
      by (rewrite Hd; exact Hn).
    rewrite Ha'. fold payload.
    destruct (Spec.first_of [x06; x15] (sp_incoming w)) as [[c rest]|];
      reflexivity.
  - intros w Hh. rewrite F.
    pose proof (upload_run contents a w n Hn) as R.
    destruct (Spec.upload_replies (Z.to_nat n) (sp_incoming w))
      as [[m rest]|].
    + rewrite R. cbn [final_world sp_written]. eexists.
      unfold Spec.upload_sequence. fold payload. cbn [app]. reflexivity.
    + destruct R as (w' & -> & Hw). destruct (Hw Hh) as [more Hm].
      exists more. exact Hm.
Qed.

Lemma metadata_packet_witness :
  exists n pk,
    _calc_num_required_packets (Py.len [x0a; x0b]) = Ok n /\ 0 <= n
    /\ (exists ab nb,
          PacketM.__init__ 0 (ab ++ nb) = Ok pk
          /\ _payload pk = ab ++ nb
          /\ int_to_bytes 3 4 = Ok ab /\ int_to_bytes n 4 = Ok nb
          /\ Py.len ab = 4 /\ Py.int_from_bytes_big ab = 3
          /\ Py.len nb = 4 /\ Py.int_from_bytes_big nb = n mod 2 ^ 32
          /\ (n < 2 ^ 32 -> Py.int_from_bytes_big nb = n))
    /\ Py.int_from_bytes_big (_block_number pk) = 0
    /\ Py.len (_payload pk) = 8
    /\ (forall w, _data w = [x0a; x0b] -> _addr_int w = 3 ->
          sp_written (final_world (_send_num_packets_and_address w)) =
          sp_written w ++ [frame pk])
    /\ (forall w, Spec.first_of [x43; x15] (sp_incoming w) <> None ->
          exists more,
            sp_written (final_world (upload_bitstream_to [x0a; x0b] 3 w)) =
            sp_written w ++ [value START_TRANSMISSION; frame pk] ++ more).
Proof.
  apply (metadata_packet [x0a; x0b] 3); [lia|]. vm_compute. discriminate.
Defined.

(** ** Chunking *)

Section Chunking.

Lemma chunk_length (data : bytes) (i : nat) :
  (length (Spec.chunk data i) <= 256)%nat.
Proof. unfold Spec.chunk. rewrite length_firstn. apply Nat.le_min_l. Qed.

Lemma chunk_succ (data : bytes) (i : nat) :
  Spec.chunk data (S i) = Spec.chunk (skipn 256 data) i.
Proof.
  unfold Spec.chunk. rewrite skipn_skipn. f_equal. f_equal. lia.
Qed.

Lemma chunk_zero (data : bytes) : Spec.chunk data 0 = firstn 256 data.
Proof. unfold Spec.chunk. rewrite Nat.mul_0_r. reflexivity. Qed.

(** Enough chunks, put back together, are the file. *)
Lemma concat_chunks (k : nat) (data : bytes) :
  (length data <= 256 * k)%nat ->
  concat (map (Spec.chunk data) (seq 0 k)) = data.
Proof.
  revert data. induction k as [|k IH]; intros data Hlen.
  - destruct data; [reflexivity | cbn [length] in Hlen; lia].
  - cbn [seq map concat]. rewrite <- seq_shift, map_map.
    rewrite (map_ext _ (Spec.chunk (skipn 256 data)))
      by (intros i; apply chunk_succ).
    rewrite IH by (rewrite length_skipn; lia).
    rewrite chunk_zero. apply firstn_skipn.
Qed.

Lemma ceil_div_256_bounds (L : Z) :
  0 <= L -> 0 <= Spec.ceil_div L 256 /\ L <= 256 * Spec.ceil_div L 256.
Proof.
  intros HL. unfold Spec.ceil_div.
  pose proof (Z.div_mod (- L) 256 ltac:(lia)).
  pose proof (Z.mod_pos_bound (- L) 256 ltac:(lia)).
  lia.
Qed.

Lemma slices_are_chunks (data : bytes) (n : Z) :
  map (fun id => Py.slice data (id * 256) ((id + 1) * 256)) (Py.range n) =
  map (Spec.chunk data) (seq 0 (Z.to_nat n)).
Proof.
  unfold Py.range. rewrite map_map. apply map_ext. intros i.
  apply slice_chunk.
Qed.

End Chunking.

(** C2, as worded, fails once a file needs more than 65535 body packets
    (16776961 bytes or more): the packet built for block number 65536
    stores the two bytes 00 00, so the block id it carries is 0. *)
Lemma chunking_block_id_wraps :
  ~ chunking_as_specified (repeat x00 (Z.to_nat 16776961)).
Proof.
  assert (Hlen : Py.len (repeat x00 (Z.to_nat 16776961)) = 16776961)
    by (unfold Py.len; rewrite repeat_length; apply Z2Nat.id; discriminate).
  revert Hlen. generalize (repeat x00 (Z.to_nat 16776961)).
  intros data Hlen (n & Hn & Hpk & _).
  rewrite Hlen in Hn. vm_compute in Hn. injection Hn as <-.
  destruct (Hpk 65536) as (pk & Hi & Hid & _); [split; discriminate|].
  rewrite init_ok in Hi. injection Hi as <-.
  cbn [_block_number] in Hid. vm_compute in Hid. discriminate Hid.
Qed.

(** C2 (amended). For every file, the body packets are built in order
    from the block numbers 1, 2, ..., packet_count; the i-th stores the
    two-byte big-endian encoding of i, which reads back as i mod 2^16
    (so as i itself while i <= 65535), and carries the payload
    [data[(i-1)*256 : i*256]], of at most 256 bytes; a transmission
    whose packets are all answered writes their frames in that order.
    For files shorter than 2^53 bytes packet_count is ceil(len/256) and
    the payloads, concatenated in block order, are the file. *)
Theorem chunking_of_file (data : bytes) :
  Py.len data <= PY_SSIZE_T_MAX ->
  exists n,
    _calc_num_required_packets (Py.len data) = Ok n /\ 0 <= n
    /\ (forall i, 1 <= i <= n ->
          exists pk,
            PacketM.__init__ i
              (Py.slice data ((i - 1) * MAX_SIZE) (i * MAX_SIZE)) = Ok pk
            /\ Py.len (_block_number pk) = 2
            /\ Py.int_from_bytes_big (_block_number pk) = i mod 2 ^ 16
            /\ (i <= 65535 -> Py.int_from_bytes_big (_block_number pk) = i)
            /\ _payload pk = Py.slice data ((i - 1) * 256) (i * 256)
            /\ _payload pk = Spec.chunk data (Z.to_nat (i - 1))
            /\ Py.len (_payload pk) <= 256)
    /\ (forall w rest,
          _data w = data ->
          Spec.after_replies (Z.to_nat n) (sp_incoming w) = Some rest ->
          _send_bitfile_content w =
          Returned tt
            (advance w
               (map (fun i => Spec.wire_layout (Z.of_nat i + 1)
                                (Spec.chunk data i))
                    (seq 0 (Z.to_nat n)))
               rest))
    /\ (Py.len data < 2 ^ 53 ->
        n = Spec.ceil_div (Py.len data) 256
        /\ concat (map (fun id => Py.slice data (id * 256) ((id + 1) * 256))
                       (Py.range n)) = data).
Proof.
  intros Hlen.
  destruct (calc_total (Py.len data)) as (n & Hn & Hn0);
    [unfold Py.len in *; lia|].
  exists n. split; [exact Hn|]. split; [exact Hn0|]. split; [|split].
  - intros i Hi. rewrite init_ok. eexists. split; [reflexivity|].
    cbn [_block_number _payload].
    assert (S : Py.slice data ((i - 1) * MAX_SIZE) (i * MAX_SIZE) =
                Spec.chunk data (Z.to_nat (i - 1))).
    { rewrite <- slice_chunk. rewrite Z2Nat.id by lia.
      f_equal. lia. }
    unfold Py.len. rewrite big_endian_length. split; [reflexivity|].
    rewrite big_endian_decode. change (256 ^ Z.of_nat 2) with (2 ^ 16).
    split; [reflexivity|]. split.
    + intros Hs. apply Z.mod_small. change (2 ^ 16) with 65536. lia.
    + split; [reflexivity|]. split; [exact S|]. rewrite S.
      pose proof (chunk_length data (Z.to_nat (i - 1))). lia.
  - intros w rest Hd Hr. unfold _send_bitfile_content, bind.
    rewrite (num_required_run w n) by (rewrite Hd; exact Hn).
    unfold Py.range.
    pose proof (for_each_send_run n (Z.to_nat n) 0 w) as F.
    rewrite Hd in F. specialize (F Hn). rewrite Hr in F. exact F.
  - intros Hs.
    assert (E : n = Spec.ceil_div (Py.len data) 256).
    { pose proof (calc_exact (Py.len data)) as X.
      rewrite Hn in X. unfold Py.len in *.
      assert (Ok n = Ok (Spec.ceil_div (Z.of_nat (length data)) 256))
        by (apply X; lia).
      congruence. }
    split; [exact E|].
    rewrite slices_are_chunks. apply concat_chunks.
    pose proof (ceil_div_256_bounds (Py.len data)) as B.
    unfold Py.len in *. lia.
Qed.

Lemma chunking_of_file_witness :
  exists n,
    _calc_num_required_packets (Py.len [x0a; x0b; x0c]) = Ok n /\ 0 <= n
    /\ (forall i, 1 <= i <= n ->
          exists pk,
            PacketM.__init__ i
              (Py.slice [x0a; x0b; x0c] ((i - 1) * MAX_SIZE) (i * MAX_SIZE))
            = Ok pk
            /\ Py.len (_block_number pk) = 2
            /\ Py.int_from_bytes_big (_block_number pk) = i mod 2 ^ 16
            /\ (i <= 65535 -> Py.int_from_bytes_big (_block_number pk) = i)
            /\ _payload pk = Py.slice [x0a; x0b; x0c] ((i - 1) * 256) (i * 256)
            /\ _payload pk = Spec.chunk [x0a; x0b; x0c] (Z.to_nat (i - 1))
            /\ Py.len (_payload pk) <= 256)
    /\ (forall w rest,
          _data w = [x0a; x0b; x0c] ->
          Spec.after_replies (Z.to_nat n) (sp_incoming w) = Some rest ->
          _send_bitfile_content w =
          Returned tt
            (advance w
               (map (fun i => Spec.wire_layout (Z.of_nat i + 1)
                                (Spec.chunk [x0a; x0b; x0c] i))
                    (seq 0 (Z.to_nat n)))
               rest))
    /\ (Py.len [x0a; x0b; x0c] < 2 ^ 53 ->
        n = Spec.ceil_div (Py.len [x0a; x0b; x0c]) 256
        /\ concat (map (fun id =>
                          Py.slice [x0a; x0b; x0c] (id * 256) ((id + 1) * 256))
                       (Py.range n)) = [x0a; x0b; x0c]).
Proof.
  apply (chunking_of_file [x0a; x0b; x0c]). vm_compute. discriminate.
Defined.

(** ** Independence from earlier session state *)

Section Oblivious.

Local Open Scope io_scope.

Lemma oblivious_ret {A} (a : A) : oblivious (ret a).
Proof. intros pre w0 w H. cbn. auto. Qed.

Lemma oblivious_lift {A} (r : result A) : oblivious (lift r).
Proof. intros pre w0 w H. destruct r; cbn; auto. Qed.

Lemma oblivious_bind {A B} (m : M A) (k : A -> M B) :
  oblivious m -> (forall a, oblivious (k a)) -> oblivious (bind m k).
Proof.
  intros Hm Hk pre w0 w H. unfold bind.
  specialize (Hm pre w0 w H).
  destruct (m w0) as [a0 w0'|e0 w0'|w0'], (m w) as [a w'|e w'|w'];
    cbn in Hm; try contradiction; try exact Hm.
  destruct Hm as [-> Hs]. apply Hk, Hs.
Qed.

Lemma oblivious_write (data : bytes) : oblivious (SerialPort.write data).
Proof.
  intros pre w0 w (Hw & Hi & Hd & Ha). cbn. split; [reflexivity|].
  repeat split; cbn; try assumption. rewrite Hw, app_assoc. reflexivity.
Qed.

Lemma same_session_set_incoming (pre : list bytes) (w0 w : World) (rx : bytes) :
  same_session pre w0 w ->
  same_session pre (set_incoming rx w0) (set_incoming rx w).
Proof. intros (Hw & Hi & Hd & Ha). repeat split; cbn; assumption. Qed.

Lemma oblivious_wait_for_chars (chars : list bytes) :
  oblivious (_wait_for_chars chars).
Proof.
  intros pre w0 w H. unfold _wait_for_chars.
  rewrite (proj1 (proj2 H)).
  generalize (sp_incoming w0) as rx.
  induction rx as [|c rx IH]; cbn.
  - apply same_session_set_incoming, H.
  - destruct (contains chars [c]); [|exact IH].
    cbn. split; [reflexivity|]. apply same_session_set_incoming, H.
Qed.

Lemma oblivious_read_until (expected : bytes) :
  oblivious (SerialPort.read_until expected).
Proof.
  intros pre w0 w H. unfold SerialPort.read_until.
  rewrite (proj1 (proj2 H)).
  generalize (@nil byte) as line. generalize (sp_incoming w0) as rx.
  induction rx as [|c rx IH]; intros line; cbn.
  - apply same_session_set_incoming, H.
  - destruct (bytes_eqb [c] expected); [|apply IH].
    cbn. split; [reflexivity|]. apply same_session_set_incoming, H.
Qed.

Lemma oblivious_set_crc_mode (m : bytes) : oblivious (set_crc_mode m).
Proof.
  intros pre w0 w (Hw & Hi & Hd & Ha). cbn. split; [reflexivity|].
  repeat split; cbn; assumption.
Qed.

Lemma oblivious_write_data (data : write_data) : oblivious (_write data).
Proof.
  apply oblivious_bind; [apply oblivious_lift|].
  intros b. apply oblivious_write.
Qed.

Lemma oblivious_start_transmission : oblivious start_transmission.
Proof.
  apply oblivious_bind; [apply oblivious_write_data|]. intros _.
  apply oblivious_bind; [apply oblivious_wait_for_chars|].
  intros m. apply oblivious_set_crc_mode.
Qed.

Lemma oblivious_stop_transmission : oblivious stop_transmission.
Proof.
  apply oblivious_bind; [apply oblivious_write_data|]. intros _.
  apply oblivious_bind; [apply oblivious_read_until|].
  intros l. apply oblivious_ret.
Qed.

Lemma oblivious_send_packet (pk : Packet) : oblivious (send_packet pk).
Proof.
  apply oblivious_bind; [apply oblivious_lift|]. intros f.
  apply oblivious_bind; [apply oblivious_write|]. intros _.
  apply oblivious_bind; [apply oblivious_wait_for_chars|].
  intros ch. apply oblivious_ret.
Qed.

(** Reading [_data] or [_addr_int] is allowed: they agree. *)
Lemma oblivious_of_session {A} (f : bytes -> Z -> result A) :
  oblivious (fun w => lift (f (_data w) (_addr_int w)) w).
Proof.
  intros pre w0 w H. pose proof H as (Hw & Hi & Hd & Ha).
  rewrite Hd, Ha. apply oblivious_lift, H.
Qed.

Lemma oblivious_num_required_packets_int : oblivious _num_required_packets_int.
Proof.
  exact (oblivious_of_session
           (fun d _ => _calc_num_required_packets (Py.len d))).
Qed.

Lemma oblivious_send_num_packets_and_address :
  oblivious _send_num_packets_and_address.
Proof.
  apply oblivious_bind;
    [exact (oblivious_of_session (fun _ a => int_to_bytes a 4))|].
  intros a. apply oblivious_bind.
  { apply oblivious_bind; [apply oblivious_num_required_packets_int|].
    intros n. apply oblivious_lift. }
  intros n. apply oblivious_bind; [apply oblivious_lift|].
  intros p. apply oblivious_bind; [apply oblivious_send_packet|].
  intros b. apply oblivious_ret.
Qed.

Lemma oblivious_for_each {A} (xs : list A) (body : A -> M unit) :
  (forall x, oblivious (body x)) -> oblivious (for_each xs body).
Proof.
  intros Hb. induction xs as [|x xs IH]; cbn [for_each].
  - apply oblivious_ret.
  - apply oblivious_bind; [apply Hb|]. intros _. exact IH.
Qed.

Lemma oblivious_send_one (id : Z) : oblivious (_send_one id).
Proof.
  apply oblivious_bind; [apply oblivious_num_required_packets_int|].
  intros _. apply oblivious_bind.
  { exact (oblivious_of_session
             (fun d _ => PacketM.__init__ (id + 1)
                           (Py.slice d (id * MAX_SIZE)
                                     ((id + 1) * MAX_SIZE)))). }
  intros p. apply oblivious_bind; [apply oblivious_send_packet|].
  intros b. apply oblivious_ret.
Qed.

Lemma oblivious_send_bitfile_content : oblivious _send_bitfile_content.
Proof.
  apply oblivious_bind; [apply oblivious_num_required_packets_int|].
  intros n. apply oblivious_for_each, oblivious_send_one.
Qed.

Lemma same_outcome_written {A} (pre : list bytes) (o0 o : outcome A) :
  same_outcome pre o0 o ->
  sp_written (final_world o) = pre ++ sp_written (final_world o0).
Proof.
  destruct o0, o; cbn; try contradiction; intros H;
    first [exact (proj1 H) | exact (proj1 (proj2 H))].
Qed.

(** After [store] nothing of the earlier session is left to read. *)
Lemma upload_from_fresh (contents : bytes) (address : Z) (w : World) :
  same_outcome (sp_written w)
    (upload_bitstream_to contents address
       (mkWorld [] (sp_incoming w) None [] 0))
    (upload_bitstream_to contents address w).
Proof.
  unfold upload_bitstream_to. unfold bind at 1 3. cbn [store].
  match goal with
  | |- same_outcome _ (?k _) _ => assert (Ob : oblivious k)
  end.
  { apply oblivious_bind; [apply oblivious_start_transmission|]. intros _.
    apply oblivious_bind; [apply oblivious_num_required_packets_int|].
    intros _.
    apply oblivious_bind; [apply oblivious_send_num_packets_and_address|].
    intros _.
    apply oblivious_bind; [apply oblivious_send_bitfile_content|].
    intros _. apply oblivious_stop_transmission. }
  apply Ob. repeat split; cbn. rewrite app_nil_r. reflexivity.
Qed.

(** From [store] on, the session fields are the arguments of this
    upload: nothing later assigns them. *)
Lemma keeps_ret {A} (a : A) : keeps_session (ret a).
Proof. intros w. split; reflexivity. Qed.

Lemma keeps_lift {A} (r : result A) : keeps_session (lift r).
Proof. intros w. destruct r; split; reflexivity. Qed.

Lemma keeps_bind {A B} (m : M A) (k : A -> M B) :
  keeps_session m -> (forall a, keeps_session (k a)) ->
  keeps_session (bind m k).
Proof.
  intros Hm Hk w. unfold bind. specialize (Hm w).
  destruct (m w) as [a w'|e w'|w']; cbn [final_world] in *; [|exact Hm..].
  destruct (Hk a w') as [Hd Ha]. destruct Hm as [Hd' Ha'].
  split; congruence.
Qed.

Lemma keeps_num_required_packets_int :
  keeps_session _num_required_packets_int.
Proof.
  intros w.
  exact (keeps_lift (_calc_num_required_packets (Py.len (_data w))) w).
Qed.

Lemma keeps_address : keeps_session _address.
Proof. intros w. exact (keeps_lift (int_to_bytes (_addr_int w) 4) w). Qed.

Lemma keeps_write (data : bytes) : keeps_session (SerialPort.write data).
Proof. intros w. split; reflexivity. Qed.

Lemma keeps_wait_for_chars (chars : list bytes) :
  keeps_session (_wait_for_chars chars).
Proof.
  intros w. unfold _wait_for_chars.
  induction (sp_incoming w) as [|c rx IH]; cbn [_wait_for_chars_from].
  - split; reflexivity.
  - destruct (contains chars [c]); [split; reflexivity | exact IH].
Qed.

Lemma keeps_read_until (expected : bytes) :
  keeps_session (SerialPort.read_until expected).
Proof.
  intros w. unfold SerialPort.read_until.
  generalize (@nil byte) as line.
  induction (sp_incoming w) as [|c rx IH]; intros line;
    cbn [SerialPort.read_until_from].
  - split; reflexivity.
  - destruct (bytes_eqb [c] expected); [split; reflexivity | apply IH].
Qed.

Lemma keeps_send_packet (pk : Packet) : keeps_session (send_packet pk).
Proof.
  apply keeps_bind; [apply keeps_lift|]. intros f.
  apply keeps_bind; [apply keeps_write|]. intros _.
  apply keeps_bind; [apply keeps_wait_for_chars|].
  intros ch. apply keeps_ret.
Qed.

Lemma keeps_for_each {A} (xs : list A) (body : A -> M unit) :
  (forall x, keeps_session (body x)) -> keeps_session (for_each xs body).
Proof.
  intros Hb. induction xs as [|x xs IH]; cbn [for_each].
  - apply keeps_ret.
  - apply keeps_bind; [apply Hb|]. intros _. exact IH.
Qed.

Lemma keeps_after_store :
  keeps_session
    (bind _start_transmission (fun _ =>
     bind _num_required_packets_int (fun _ =>
     bind _send_num_packets_and_address (fun _ =>
     bind _send_bitfile_content (fun _ => _stop_transmission))))).
Proof.
  apply keeps_bind.
  { apply keeps_bind.
    - apply keeps_bind; [apply keeps_lift | intros b; apply keeps_write].
    - intros _. apply keeps_bind; [apply keeps_wait_for_chars|].
      intros m w. split; reflexivity. }
  intros _. apply keeps_bind; [apply keeps_num_required_packets_int|].
  intros _. apply keeps_bind.
  { apply keeps_bind; [apply keeps_address|]. intros a.
    apply keeps_bind.
    - apply keeps_bind;
        [apply keeps_num_required_packets_int | intros n; apply keeps_lift].
    - intros n. apply keeps_bind; [apply keeps_lift|]. intros pk.
      apply keeps_bind; [apply keeps_send_packet | intros b; apply keeps_ret]. }
  intros _. apply keeps_bind.
  { apply keeps_bind; [apply keeps_num_required_packets_int|]. intros n.
    apply keeps_for_each. intros id.
    apply keeps_bind; [apply keeps_num_required_packets_int|]. intros _.
    apply keeps_bind; [intros w; cbv beta; apply keeps_lift|]. intros pk.
    apply keeps_bind; [apply keeps_send_packet | intros b; apply keeps_ret]. }
  intros _. apply keeps_bind.
  - apply keeps_bind; [apply keeps_lift | intros b; apply keeps_write].
  - intros _. apply keeps_bind; [apply keeps_read_until|].
    intros l. apply keeps_ret.
Qed.

Lemma upload_session_fields (contents : bytes) (address : Z) (w : World) :
  _data (final_world (upload_bitstream_to contents address w)) = contents
  /\ _addr_int (final_world (upload_bitstream_to contents address w)) = address.
Proof.
  unfold upload_bitstream_to. unfold bind at 1. cbn [store].
  match goal with
  | |- _data (final_world (_ ?w1)) = _ /\ _ =>
      exact (keeps_after_store w1)
  end.
Qed.

End Oblivious.

(** C10. What an upload writes to the transport is a function of the
    file contents, the target address and the reply bytes it finds
    pending, and of nothing else: from any world the chunks added to
    the port are [transport_output contents address replies], the
    output of a fresh transmitter on the same replies, and the upload
    ends the same way (returns, raises or blocks).  In particular two
    runs with the same three inputs write the same, and an upload that
    follows an earlier one on the same transmitter is not influenced by
    it, because [_data] and [_addr_int] are overwritten first (and
    hold this upload's file and address to its end) and [_crc_mode] is
    never read. *)
Theorem upload_output_deterministic
    (contents : bytes) (address : Z) (w : World) :
  same_outcome (sp_written w)
    (upload_bitstream_to contents address
       (mkWorld [] (sp_incoming w) None [] 0))
    (upload_bitstream_to contents address w)
  /\ sp_written (final_world (upload_bitstream_to contents address w)) =
     sp_written w ++ transport_output contents address (sp_incoming w)
  /\ (forall earlier_contents earlier_address,
        let w1 :=
          final_world
            (upload_bitstream_to earlier_contents earlier_address w) in
        sp_written (final_world (upload_bitstream_to contents address w1)) =
        sp_written w1 ++ transport_output contents address (sp_incoming w1))
  /\ _data (final_world (upload_bitstream_to contents address w)) = contents
  /\ _addr_int (final_world (upload_bitstream_to contents address w)) = address.
Proof.
  split; [apply upload_from_fresh|]. split; [|split].
  - apply (same_outcome_written _ _ _ (upload_from_fresh contents address w)).
  - intros c0 a0 w1.
    apply (same_outcome_written _ _ _ (upload_from_fresh contents address w1)).
  - apply upload_session_fields.
Qed.

(** * Further properties of the packet format *)

Section PacketMore.

Lemma big_endian_mod (n : nat) (v : Z) :
  Spec.big_endian n (v mod 256 ^ Z.of_nat n) = Spec.big_endian n v.
Proof.
  revert v. induction n as [|n IH]; intros v; [reflexivity|].
  cbn [Spec.big_endian].
  rewrite Nat2Z.inj_succ, Z.pow_succ_r by lia.
  assert (P : 0 < 256 ^ Z.of_nat n) by (apply Z.pow_pos_nonneg; lia).
  rewrite (Z.rem_mul_r v 256 (256 ^ Z.of_nat n)) by lia.
  set (r := (v / 256) mod 256 ^ Z.of_nat n).
  assert (D : (v mod 256 + 256 * r) / 256 = r).
  { pose proof (Z.mod_pos_bound v 256 ltac:(lia)).
    symmetry. apply (Z.div_unique _ 256 r (v mod 256)); [left|]; lia. }
  assert (Mo : (v mod 256 + 256 * r) mod 256 = v mod 256).
  { pose proof (Z.mod_pos_bound v 256 ltac:(lia)).
    symmetry. apply (Z.mod_unique _ 256 r (v mod 256)); [left|]; lia. }
  rewrite D, Mo. f_equal. unfold r. rewrite <- (IH (v / 256)).
  reflexivity.
Qed.

Lemma big_endian_eq_iff (n : nat) (v v' : Z) :
  Spec.big_endian n v = Spec.big_endian n v' <->
  v mod 256 ^ Z.of_nat n = v' mod 256 ^ Z.of_nat n.
Proof.
  split; intros H.
  - rewrite <- !big_endian_decode. rewrite H. reflexivity.
  - rewrite <- (big_endian_mod n v), <- (big_endian_mod n v'), H.
    reflexivity.
Qed.

Lemma wire_layout_length (b : Z) (p : bytes) :
  length (Spec.wire_layout b p) = (length p + 6)%nat.
Proof.
  unfold Spec.wire_layout. rewrite !length_app, !big_endian_length.
  cbn [length]. lia.
Qed.

Lemma wire_layout_payload (b : Z) (p : bytes) :
  firstn (length p) (skipn 5 (Spec.wire_layout b p)) = p.
Proof.
  unfold Spec.wire_layout. rewrite !big_endian_2. cbn [app skipn].
  rewrite firstn_app, Nat.sub_diag, firstn_all, firstn_O, app_nil_r.
  reflexivity.
Qed.

Lemma sum_app (p q : bytes) : Py.sum (p ++ q) = Py.sum p + Py.sum q.
Proof.
  rewrite !sum_fold_right. induction p as [|x p IH]; cbn [app fold_right];
    lia.
Qed.

Lemma sum_cons (b : byte) (p : bytes) :
  Py.sum (b :: p) = Py.byte_val b + Py.sum p.
Proof. rewrite !sum_fold_right. reflexivity. Qed.

Lemma sum_permutation (p q : bytes) :
  Permutation p q -> Py.sum p = Py.sum q.
Proof.
  intros H. induction H as [|x p q _ IH|x y p|p q r _ IH1 _ IH2].
  - reflexivity.
  - rewrite !sum_cons, IH. reflexivity.
  - rewrite !sum_cons. lia.
  - congruence.
Qed.

Lemma byte_val_inj (b b' : byte) : Py.byte_val b = Py.byte_val b' -> b = b'.
Proof.
  intros H. rewrite <- (byte_of_Z_val b), <- (byte_of_Z_val b'), H.
  reflexivity.
Qed.

Lemma check_sum_payload (pk : Packet) :
  exists ck,
    PacketM._check_sum pk = Ok [ck]
    /\ Py.byte_val ck = Py.sum (_payload pk) mod 256.
Proof.
  exists (Spec.checksum (_payload pk)).
  split; [apply check_sum_ok | apply checksum_val].
Qed.

End PacketMore.

(** X1. [int_to_bytes] accepts every integer and every width: it never
    raises, a width of zero or less gives the empty byte string, and a
    negative value comes out in two's complement (the bytes read back
    as [value mod 2^(8*w)], which is non-negative). *)
Theorem int_to_bytes_any_integer (value w : Z) :
  exists bs,
    int_to_bytes value w = Ok bs
    /\ Py.len bs = Z.max w 0
    /\ Py.int_from_bytes_big bs = value mod 2 ^ (8 * Z.max w 0)
    /\ (w <= 0 -> bs = []).
Proof.
  exists (Spec.big_endian (Z.to_nat w) value).
  split; [apply int_to_bytes_ok|]. split; [|split].
  - unfold Py.len. rewrite big_endian_length. lia.
  - rewrite big_endian_decode.
    replace (Z.of_nat (Z.to_nat w)) with (Z.max w 0) by lia.
    change 256 with (2 ^ 8). rewrite <- Z.pow_mul_r by lia. reflexivity.
  - intros Hw. replace (Z.to_nat w) with 0%nat by lia. reflexivity.
Qed.

(** X2. [Packet] does not enforce [MAX_SIZE]: a payload of any length is
    accepted and serialized.  The frame is always 6 bytes longer than
    the payload and carries the payload unchanged after the five header
    bytes, but the two-byte length field holds [len(payload) mod 2^16],
    so it is right up to 65535 bytes and wraps from 65536 on. *)
Theorem oversized_payload_frame (b : Z) (p : bytes) :
  exists frame,
    (pk <- PacketM.__init__ b p ;; PacketM.as_bytearray pk) = Ok frame
    /\ Py.len frame = Py.len p + 6
    /\ firstn (length p) (skipn 5 frame) = p
    /\ Py.int_from_bytes_big (firstn 2 (skipn 3 frame)) =
       Py.len p mod 2 ^ 16
    /\ (Py.len p <= 65535 ->
        Py.int_from_bytes_big (firstn 2 (skipn 3 frame)) = Py.len p).
Proof.
  exists (Spec.wire_layout b p). split; [apply serialize_ok|].
  assert (F : firstn 2 (skipn 3 (Spec.wire_layout b p)) =
              Spec.big_endian 2 (Py.len p)).
  { unfold Spec.wire_layout. rewrite !big_endian_2. reflexivity. }
  split; [|split; [|split]].
  - unfold Py.len. rewrite wire_layout_length. lia.
  - apply wire_layout_payload.
  - rewrite F, big_endian_decode. reflexivity.
  - intros H. rewrite F. apply big_endian_decode_small.
    unfold Py.len in *. change (256 ^ Z.of_nat 2) with 65536. lia.
Qed.

(** X3. Two packets serialize to the same frame exactly when their
    payloads are equal and their block numbers agree modulo 2^16: a
    block number is only visible on the wire through its low 16 bits
    (block 65536 looks like block 0), and nothing else is lost. *)
Theorem frames_equal_iff (b b' : Z) (p p' : bytes) :
  (pk <- PacketM.__init__ b p ;; PacketM.as_bytearray pk) =
  (pk <- PacketM.__init__ b' p' ;; PacketM.as_bytearray pk)
  <-> b mod 2 ^ 16 = b' mod 2 ^ 16 /\ p = p'.
Proof.
  rewrite !serialize_ok. split.
  - intros E. assert (E' : Spec.wire_layout b p = Spec.wire_layout b' p')
      by congruence. clear E.
    assert (L : length p = length p').
    { pose proof (f_equal (@length byte) E') as L.
      rewrite !wire_layout_length in L. lia. }
    split.
    + pose proof (f_equal (fun f => firstn 2 (skipn 1 f)) E') as I.
      unfold Spec.wire_layout in I. rewrite !big_endian_2 in I.
      cbn [app skipn firstn] in I. rewrite <- !big_endian_2 in I.
      apply (big_endian_eq_iff 2) in I. exact I.
    + rewrite <- (wire_layout_payload b p), <- (wire_layout_payload b' p').
      rewrite E', L. reflexivity.
  - intros [Hb ->]. unfold Spec.wire_layout.
    apply (big_endian_eq_iff 2) in Hb. rewrite Hb. reflexivity.
Qed.

(** X4. Assigning [block_number] and then serializing gives the frame
    of a packet built with the new block number and the same payload:
    the setter replaces the stored id and touches nothing else. *)
Theorem set_block_number_then_serialize (b v : Z) (p : bytes) :
  (pk <- PacketM.__init__ b p ;;
   pk' <- PacketM.set_block_number pk v ;;
   PacketM.as_bytearray pk') =
  (pk <- PacketM.__init__ v p ;; PacketM.as_bytearray pk).
Proof.
  rewrite !init_ok. cbn [rbind]. unfold PacketM.set_block_number.
  rewrite int_to_bytes_ok. reflexivity.
Qed.

(** X5. The checksum notices every change of a single payload byte: two
    payloads that differ in exactly one position never get the same
    checksum byte. *)
Theorem check_sum_detects_one_byte
    (bn soh pre post : bytes) (b b' : byte) :
  b <> b' ->
  PacketM._check_sum (mkPacket bn soh (pre ++ b :: post)) <>
  PacketM._check_sum (mkPacket bn soh (pre ++ b' :: post)).
Proof.
  intros Hb E. rewrite !check_sum_ok in E. cbn [_payload] in E.
  assert (E' : Spec.checksum (pre ++ b :: post) =
               Spec.checksum (pre ++ b' :: post)) by congruence.
  apply (f_equal Py.byte_val) in E'. rewrite !checksum_val in E'.
  rewrite !sum_app, !sum_cons in E'.
  pose proof (byte_val_range b). pose proof (byte_val_range b').
  set (x := Py.sum pre + (Py.byte_val b + Py.sum post)) in *.
  set (y := Py.sum pre + (Py.byte_val b' + Py.sum post)) in *.
  pose proof (Z.div_mod x 256 ltac:(lia)).
  pose proof (Z.div_mod y 256 ltac:(lia)).
  apply Hb, byte_val_inj. unfold x, y in *. lia.
Qed.

Lemma check_sum_detects_one_byte_witness :
  PacketM._check_sum (mkPacket [x00; x01] [x01] ([x0a] ++ x01 :: [x0b])) <>
  PacketM._check_sum (mkPacket [x00; x01] [x01] ([x0a] ++ x02 :: [x0b])).
Proof.
  apply (check_sum_detects_one_byte [x00; x01] [x01] [x0a] [x0b] x01 x02).
  discriminate.
Defined.

(** X6. The checksum does not see the order of the payload bytes: any
    rearrangement of a payload has the same checksum byte. *)
Theorem check_sum_blind_to_order (bn soh p q : bytes) :
  Permutation p q ->
  PacketM._check_sum (mkPacket bn soh p) =
  PacketM._check_sum (mkPacket bn soh q).
Proof.
  intros H. rewrite !check_sum_ok. cbn [_payload].
  f_equal. f_equal. apply byte_val_inj. rewrite !checksum_val.
  rewrite (sum_permutation p q H). reflexivity.
Qed.

Lemma check_sum_blind_to_order_witness :
  PacketM._check_sum (mkPacket [x00; x01] [x01] [x0a; x0b]) =
  PacketM._check_sum (mkPacket [x00; x01] [x01] [x0b; x0a]).
Proof.
  apply (check_sum_blind_to_order [x00; x01] [x01] [x0a; x0b] [x0b; x0a]).
  apply perm_swap.
Defined.

(** * Further properties of the transfer protocol *)

Section ProtocolMore.

Lemma bytes_of_ints_in_range (l : list Z) :
  if forallb (fun z => (0 <=? z) && (z <? 256)) l
  then exists bs, Py.bytes_of_ints l = Ok bs /\ map Py.byte_val bs = l
  else Py.bytes_of_ints l = Raise ValueError.
Proof.
  induction l as [|z l IH]; [exists []; split; reflexivity|].
  cbn [forallb].
  destruct ((0 <=? z) && (z <? 256)) eqn:Ez; cbn [andb].
  - apply andb_prop in Ez as [E1 E2].
    assert (Hz : 0 <= z < 256) by lia.
    rewrite (bytes_of_ints_cons z l Hz).
    destruct (forallb _ l).
    + destruct IH as (bs & -> & Hm). eexists. split; [reflexivity|].
      cbn [map]. rewrite byte_val_of_Z by exact Hz. f_equal. exact Hm.
    + rewrite IH. reflexivity.
  - cbn [Py.bytes_of_ints]. rewrite Ez. reflexivity.
Qed.

Lemma first_of_found (cs : list byte) (junk rest : bytes) (c : byte) :
  Forall (fun x => ~ In x cs) junk -> In c cs ->
  Spec.first_of cs (junk ++ c :: rest) = Some (c, rest).
Proof.
  intros Hj Hc. induction Hj as [|x junk Hx _ IH]; cbn [app Spec.first_of].
  - replace (existsb (Byte.eqb c) cs) with true; [reflexivity|].
    symmetry. apply existsb_exists. exists c.
    split; [exact Hc | apply Byte.byte_dec_lb; reflexivity].
  - replace (existsb (Byte.eqb x) cs) with false; [exact IH|].
    symmetry. apply not_true_is_false. intros T.
    apply existsb_exists in T as (y & Hy & Exy).
    apply Byte.byte_dec_bl in Exy. subst y. contradiction.
Qed.

Lemma first_of_missing (cs : list byte) (rx : bytes) :
  Forall (fun x => ~ In x cs) rx -> Spec.first_of cs rx = None.
Proof.
  intros H. induction H as [|x rx Hx _ IH]; cbn [Spec.first_of];
    [reflexivity|].
  replace (existsb (Byte.eqb x) cs) with false; [exact IH|].
  symmetry. apply not_true_is_false. intros T.
  apply existsb_exists in T as (y & Hy & Exy).
  apply Byte.byte_dec_bl in Exy. subst y. contradiction.
Qed.

Lemma contains_wrong_length (chars : list bytes) (c : byte) :
  Forall (fun ch => length ch <> 1%nat) chars -> contains chars [c] = false.
Proof.
  intros H. unfold contains.
  induction H as [|ch chars Hch _ IH]; [reflexivity|].
  cbn [existsb]. rewrite IH, orb_false_r. unfold bytes_eqb.
  destruct (list_eq_dec byte_eq_dec [c] ch) as [<-|]; [|reflexivity].
  cbn in Hch. contradiction.
Qed.

End ProtocolMore.


(** X8. Writing a list of integers sends them unchanged as one chunk
    when every one of them is a byte value (0..255), the empty list
    giving an empty chunk; otherwise the call raises [ValueError] and
    the port is untouched. *)
Theorem write_int_list (l : list Z) (w : World) :
  if forallb (fun z => (0 <=? z) && (z <? 256)) l
  then exists bs,
         _write (DIntList l) w = Returned tt (advance w [bs] (sp_incoming w))
         /\ map Py.byte_val bs = l
  else _write (DIntList l) w = Raised ValueError w.
Proof.
  pose proof (bytes_of_ints_in_range l) as H.
  unfold _write, bind, lift. cbn [_make_bytes].
  destruct (forallb _ l).
  - destruct H as (bs & -> & Hm). exists bs. split; [reflexivity | exact Hm].
  - rewrite H. reflexivity.
Qed.

(** X9. [start_transmission] writes the single byte '1', then throws
    away every reply byte that is neither 'C' nor NAK (an ACK too),
    stops at the first 'C' or NAK, stores that byte in [_crc_mode] and
    leaves the bytes after it unread. *)
Theorem start_transmission_handshake
    (w : World) (junk rest : bytes) (c : byte) :
  sp_incoming w = junk ++ c :: rest ->
  Forall (fun x => x <> x43 /\ x <> x15) junk ->
  c = x43 \/ c = x15 ->
  start_transmission w =
  Returned tt
    {| sp_written := sp_written w ++ [[x31]];
       sp_incoming := rest; _crc_mode := Some [c];
       _data := _data w; _addr_int := _addr_int w |}.
Proof.
  intros Hrx Hj Hc. rewrite start_transmission_run, Hrx.
  rewrite first_of_found; [reflexivity| |].
  - apply Forall_impl with (2 := Hj). cbn. intros a [H1 H2] [E|[E|[]]];
      congruence.
  - cbn. destruct Hc; auto.
Qed.

Lemma start_transmission_handshake_witness :
  start_transmission (mkWorld [] [x06; x00; x15; x43] None [] 0) =
  Returned tt
    {| sp_written := sp_written (mkWorld [] [x06; x00; x15; x43] None [] 0)
                       ++ [[x31]];
       sp_incoming := [x43]; _crc_mode := Some [x15];
       _data := _data (mkWorld [] [x06; x00; x15; x43] None [] 0);
       _addr_int := _addr_int (mkWorld [] [x06; x00; x15; x43] None [] 0) |}.
Proof.
  apply (start_transmission_handshake
           (mkWorld [] [x06; x00; x15; x43] None [] 0) [x06; x00] [x43] x15).
  - reflexivity.
  - repeat constructor; discriminate.
  - right. reflexivity.
Defined.

(** X10. Without a 'C' or NAK among the replies [start_transmission]
    never returns: the start byte has been written, every reply byte
    has been read and dropped, and [_crc_mode] is still what it was. *)
Theorem start_transmission_unanswered (w : World) :
  Forall (fun x => x <> x43 /\ x <> x15) (sp_incoming w) ->
  start_transmission w = Blocked (advance w [[x31]] []).
Proof.
  intros H. rewrite start_transmission_run, first_of_missing; [reflexivity|].
  apply Forall_impl with (2 := H). cbn. intros a [H1 H2] [E|[E|[]]];
    congruence.
Qed.

Lemma start_transmission_unanswered_witness :
  start_transmission (mkWorld [] [x06; x04] None [] 0) =
  Blocked (advance (mkWorld [] [x06; x04] None [] 0) [[x31]] []).
Proof.
  apply (start_transmission_unanswered (mkWorld [] [x06; x04] None [] 0)).
  repeat constructor; discriminate.
Defined.

(** X11. [stop_transmission] writes the single byte EOT and then reads
    up to and including the first ACK; every byte before it is dropped,
    a NAK included, so a NAK does not end the wait as it does for a
    packet. *)
Theorem stop_transmission_waits_for_ack (w : World) (junk rest : bytes) :
  sp_incoming w = junk ++ x06 :: rest ->
  Forall (fun x => x <> x06) junk ->
  stop_transmission w = Returned tt (advance w [[x04]] rest).
Proof.
  intros Hrx Hj. rewrite stop_transmission_run, Hrx.
  rewrite first_of_found; [reflexivity| |left; reflexivity].
  apply Forall_impl with (2 := Hj). cbn. intros a H [E|[]]. congruence.
Qed.

Lemma stop_transmission_waits_for_ack_witness :
  stop_transmission (mkWorld [] [x15; x15; x06; x01] None [] 0) =
  Returned tt (advance (mkWorld [] [x15; x15; x06; x01] None [] 0)
                 [[x04]] [x01]).
Proof.
  apply (stop_transmission_waits_for_ack
           (mkWorld [] [x15; x15; x06; x01] None [] 0) [x15; x15] [x01]).
  - reflexivity.
  - repeat constructor; discriminate.
Defined.

(** X12. Without an ACK among the replies [stop_transmission] never
    returns, whatever else arrives: EOT has been written and every
    reply byte has been read and dropped. *)
Theorem stop_transmission_unanswered (w : World) :
  Forall (fun x => x <> x06) (sp_incoming w) ->
  stop_transmission w = Blocked (advance w [[x04]] []).
Proof.
  intros H. rewrite stop_transmission_run, first_of_missing; [reflexivity|].
  apply Forall_impl with (2 := H). cbn. intros a Ha [E|[]]. congruence.
Qed.

Lemma stop_transmission_unanswered_witness :
  stop_transmission (mkWorld [] [x15; x43] None [] 0) =
  Blocked (advance (mkWorld [] [x15; x43] None [] 0) [[x04]] []).
Proof.
  apply (stop_transmission_unanswered (mkWorld [] [x15; x43] None [] 0)).
  repeat constructor; discriminate.
Defined.

(** X13. [_wait_for_chars] compares each single byte it reads with the
    entries of [chars], so an entry that is not exactly one byte long
    can never match: if no entry is one byte long (the empty list
    included) the call reads and drops every reply and never returns,
    and it writes nothing. *)
Theorem wait_for_chars_needs_single_bytes (chars : list bytes) (w : World) :
  Forall (fun ch => length ch <> 1%nat) chars ->
  _wait_for_chars chars w = Blocked (set_incoming [] w).
Proof.
  intros H. unfold _wait_for_chars.
  induction (sp_incoming w) as [|c rx IH]; cbn [_wait_for_chars_from];
    [reflexivity|].
  rewrite (contains_wrong_length chars c H). exact IH.
Qed.

Lemma wait_for_chars_needs_single_bytes_witness :
  _wait_for_chars [[x06; x15]; []] (mkWorld [] [x06; x15] None [] 0) =
  Blocked (set_incoming [] (mkWorld [] [x06; x15] None [] 0)).
Proof.
  apply (wait_for_chars_needs_single_bytes [[x06; x15]; []]
           (mkWorld [] [x06; x15] None [] 0)).
  repeat constructor; discriminate.
Defined.

(** * Further properties of the upload *)

Section UploadMore.



Lemma frames_sent_le (k : nat) (rx : bytes) :
  (fst (frames_sent k rx) <= k)%nat
  /\ (forall r, snd (frames_sent k rx) = Some r -> fst (frames_sent k rx) = k).
Proof.
  revert rx. induction k as [|k IH]; intros rx; cbn [frames_sent].
  - split; [cbn; lia | reflexivity].
  - destruct (Spec.first_of [x06; x15] rx) as [[c rest]|].
    + specialize (IH rest). destruct (frames_sent k rest) as [j r].
      cbn [fst snd] in *. destruct IH as [H1 H2]. split; [lia|].
      intros r' E. rewrite (H2 r' E). reflexivity.
    + cbn. split; [lia | discriminate].
Qed.

Lemma for_each_send_trace (n : Z) (k start : nat) (w : World) :
  _calc_num_required_packets (Py.len (_data w)) = Ok n ->
  let frames := map (fun i => Spec.wire_layout (Z.of_nat i + 1)
                                (Spec.chunk (_data w) i)) (seq start k) in
  match frames_sent k (sp_incoming w) with
  | (j, Some rest) =>
      for_each (map Z.of_nat (seq start k)) _send_one w =
      Returned tt (advance w frames rest)
  | (j, None) =>
      for_each (map Z.of_nat (seq start k)) _send_one w =
      Blocked (advance w (firstn j frames) [])
  end.
Proof.
  revert start w. induction k as [|k IH]; intros start w E frames.
  - cbn. unfold ret, advance. rewrite app_nil_r. destruct w; reflexivity.
  - unfold frames. cbn [seq map for_each frames_sent]. unfold bind.
    rewrite (send_one_run start w n E).
    destruct (Spec.first_of [x06; x15] (sp_incoming w)) as [[c rest]|];
      [|reflexivity].
    specialize (IH (S start)
      (advance w [Spec.wire_layout (Z.of_nat start + 1)
                    (Spec.chunk (_data w) start)] rest) E).
    cbn zeta in IH. cbn [sp_incoming _data advance] in IH.
    destruct (frames_sent k rest) as [j [rest'|]]; rewrite IH;
      rewrite advance_advance; reflexivity.
Qed.


Lemma frames_total_length (data : bytes) (start k : nat) :
  length (concat (map (fun i => Spec.wire_layout (Z.of_nat i + 1)
                                  (Spec.chunk data i)) (seq start k))) =
  (length (concat (map (Spec.chunk data) (seq start k))) + 6 * k)%nat.
Proof.
  revert start. induction k as [|k IH]; intros start; [reflexivity|].
  cbn [seq map concat]. rewrite !length_app, IH, wire_layout_length. lia.
Qed.

End UploadMore.

(** ** Where an upload stops *)

Section UploadOutcome.

Lemma frames_sent_after_replies (k : nat) (rx : bytes) :
  snd (frames_sent k rx) = Spec.after_replies k rx.
Proof.
  revert rx. induction k as [|k IH]; intros rx;
    cbn [frames_sent Spec.after_replies]; [reflexivity|].
  destruct (Spec.first_of [x06; x15] rx) as [[c rest]|]; [|reflexivity].
  rewrite <- IH. destruct (frames_sent k rest). reflexivity.
Qed.

(** The whole outcome of an upload: it returns when every wait is
    answered, and otherwise blocks in the first wait that is not, with
    exactly the chunks up to that wait written, every reply consumed,
    and [_crc_mode] set only if the handshake was answered. *)
Lemma upload_outcome (contents : bytes) (address : Z) (w : World) (n : Z) :
  _calc_num_required_packets (Py.len contents) = Ok n ->
  upload_bitstream_to contents address w =
  match Spec.upload_replies (Z.to_nat n) (sp_incoming w) with
  | Some (m, rest) =>
      Returned tt
        {| sp_written := sp_written w ++ Spec.upload_sequence contents address n;
           sp_incoming := rest; _crc_mode := Some [m];
           _data := contents; _addr_int := address |}
  | None =>
      Blocked
        {| sp_written :=
             sp_written w
               ++ firstn (chunks_written (Z.to_nat n) (sp_incoming w))
                    (Spec.upload_sequence contents address n);
           sp_incoming := [];
           _crc_mode :=
             match Spec.first_of [x43; x15] (sp_incoming w) with
             | Some (m, _) => Some [m]
             | None => _crc_mode w
             end;
           _data := contents; _addr_int := address |}
  end.
Proof.
  intros E.
  unfold upload_bitstream_to, Spec.upload_replies, chunks_written,
    _start_transmission, _stop_transmission, store, bind.
  rewrite start_transmission_run. cbn [sp_incoming].
  destruct (Spec.first_of [x43; x15] (sp_incoming w)) as [[m r1]|];
    [|reflexivity].
  match goal with
  | |- context [_num_required_packets_int ?w0] => set (w1 := w0)
  end.
  assert (E1 : _calc_num_required_packets (Py.len (_data w1)) = Ok n)
    by exact E.
  rewrite (num_required_run w1 n E1).
  rewrite (send_num_packets_and_address_run w1 n E1).
  cbn [Spec.after_replies]. cbn [sp_incoming w1].
  destruct (Spec.first_of [x06; x15] r1) as [[c r2]|].
  2:{ unfold advance. cbn [sp_written sp_incoming _crc_mode _data _addr_int w1].
      rewrite <- app_assoc. reflexivity. }
  match goal with
  | |- context [_send_bitfile_content ?w0] => set (w2 := w0)
  end.
  assert (E2 : _calc_num_required_packets (Py.len (_data w2)) = Ok n)
    by exact E.
  unfold _send_bitfile_content, bind.
  rewrite (num_required_run w2 n E2). unfold Py.range.
  pose proof (for_each_send_trace n (Z.to_nat n) 0 w2 E2) as F.
  cbn zeta in F. cbn [sp_incoming w2 advance] in F.
  pose proof (frames_sent_le (Z.to_nat n) r2) as [Hle Hall].
  rewrite <- (frames_sent_after_replies (Z.to_nat n) r2).
  destruct (frames_sent (Z.to_nat n) r2) as [j [r3|]]; rewrite F;
    cbn [fst snd] in Hle, Hall |- *; clear F.
  - rewrite stop_transmission_run. cbn [sp_incoming advance].
    assert (Hj : j = Z.to_nat n) by (apply (Hall r3); reflexivity).
    subst j.
    destruct (Spec.first_of [x06] r3) as [[c' r4]|].
    + unfold advance, Spec.upload_sequence.
      cbn [sp_written sp_incoming _crc_mode _data _addr_int w2 w1 advance].
      rewrite <- !app_assoc. reflexivity.
    + assert (Hall' : firstn (2 + Z.to_nat n + 1)
                        (Spec.upload_sequence contents address n) =
                      Spec.upload_sequence contents address n).
      { apply firstn_all2. unfold Spec.upload_sequence.
        rewrite !length_app, length_map, length_seq. cbn [length]. lia. }
      rewrite Hall'. unfold advance, Spec.upload_sequence.
      cbn [sp_written sp_incoming _crc_mode _data _addr_int w2 w1 advance].
      rewrite <- !app_assoc. reflexivity.
  - unfold advance, Spec.upload_sequence.
    cbn [sp_written sp_incoming _crc_mode _data _addr_int w2 w1 advance].
    rewrite <- !app_assoc. cbn [app firstn Nat.add].
    rewrite firstn_app, length_map, length_seq.
    replace (j - Z.to_nat n)%nat with 0%nat by lia.
    rewrite firstn_O, app_nil_r. reflexivity.
Qed.

Lemma chunks_written_bounds (n : nat) (rx : bytes) :
  (1 <= chunks_written n rx <= n + 3)%nat.
Proof.
  unfold chunks_written.
  destruct (Spec.first_of [x43; x15] rx) as [[m r1]|]; [|lia].
  destruct (Spec.first_of [x06; x15] r1) as [[c r2]|]; [|lia].
  pose proof (frames_sent_le n r2) as [Hle _].
  destruct (frames_sent n r2) as [j [r|]]; cbn [fst] in Hle; lia.
Qed.

End UploadOutcome.

(** C4 (amended). For every file and every reply stream that answers
    each wait of the upload (a mode byte 'C' or NAK, then an ACK or NAK
    for the metadata packet and for each body packet, then an ACK), the
    upload returns after writing exactly the start byte, the metadata
    packet, [packet_count] body packets and the end byte; which of the
    packet replies are NAK makes no difference to what is written.  The
    empty file has [packet_count = 0].  When the replies run out the
    upload blocks in the first wait that is not answered: it has then
    written exactly the chunks of that same sequence up to the one
    whose reply is missing (the start byte alone when the handshake is
    unanswered, everything through the end byte when only the final ACK
    is missing) and nothing else, and has consumed every reply. *)
Theorem upload_sequence_with_replies
    (contents : bytes) (address : Z) (w : World) :
  Py.len contents <= PY_SSIZE_T_MAX ->
  exists n,
    _calc_num_required_packets (Py.len contents) = Ok n
    /\ 0 <= n
    /\ (contents = [] -> n = 0)
    /\ (forall m rest,
          Spec.upload_replies (Z.to_nat n) (sp_incoming w) = Some (m, rest) ->
          upload_bitstream_to contents address w =
          Returned tt
            {| sp_written :=
                 sp_written w ++ Spec.upload_sequence contents address n;
               sp_incoming := rest; _crc_mode := Some [m];
               _data := contents; _addr_int := address |})
    /\ (Spec.upload_replies (Z.to_nat n) (sp_incoming w) = None ->
        upload_bitstream_to contents address w =
        Blocked
          {| sp_written :=
               sp_written w
                 ++ firstn (chunks_written (Z.to_nat n) (sp_incoming w))
                      (Spec.upload_sequence contents address n);
             sp_incoming := [];
             _crc_mode :=
               match Spec.first_of [x43; x15] (sp_incoming w) with
               | Some (m, _) => Some [m]
               | None => _crc_mode w
               end;
             _data := contents; _addr_int := address |}
        /\ (1 <= chunks_written (Z.to_nat n) (sp_incoming w)
             <= Z.to_nat n + 3)%nat)
    /\ (Spec.first_of [x43; x15] (sp_incoming w) = None ->
        upload_bitstream_to contents address w =
        Blocked
          {| sp_written := sp_written w ++ [value START_TRANSMISSION];
             sp_incoming := []; _crc_mode := _crc_mode w;
             _data := contents; _addr_int := address |}).
Proof.
  intros Hlen.
  destruct (calc_total (Py.len contents)) as (n & Hn & Hn0);
    [unfold Py.len in *; lia|].
  exists n. split; [exact Hn|]. split; [exact Hn0|]. split.
  { intros ->. vm_compute in Hn. congruence. }
  pose proof (upload_outcome contents address w n Hn) as R.
  split; [|split].
  - intros m rest E. rewrite E in R. exact R.
  - intros E. rewrite E in R. split; [exact R|].
    apply chunks_written_bounds.
  - intros E. unfold Spec.upload_replies, chunks_written in R.
    rewrite E in R. exact R.
Qed.

Lemma upload_sequence_with_replies_witness :
  exists n,
    _calc_num_required_packets (Py.len [x0a; x0b]) = Ok n
    /\ 0 <= n
    /\ ([x0a; x0b] = [] -> n = 0)
    /\ (forall m rest,
          Spec.upload_replies (Z.to_nat n)
            (sp_incoming (mkWorld [] [x43; x15; x06; x06] None [] 0))
          = Some (m, rest) ->
          upload_bitstream_to [x0a; x0b] 3
            (mkWorld [] [x43; x15; x06; x06] None [] 0) =
          Returned tt
            {| sp_written :=
                 sp_written (mkWorld [] [x43; x15; x06; x06] None [] 0)
                   ++ Spec.upload_sequence [x0a; x0b] 3 n;
               sp_incoming := rest; _crc_mode := Some [m];
               _data := [x0a; x0b]; _addr_int := 3 |})
    /\ (Spec.upload_replies (Z.to_nat n)
          (sp_incoming (mkWorld [] [x43; x15; x06; x06] None [] 0)) = None ->
        upload_bitstream_to [x0a; x0b] 3
          (mkWorld [] [x43; x15; x06; x06] None [] 0) =
        Blocked
          {| sp_written :=
               sp_written (mkWorld [] [x43; x15; x06; x06] None [] 0)
                 ++ firstn
                      (chunks_written (Z.to_nat n)
                         (sp_incoming
                            (mkWorld [] [x43; x15; x06; x06] None [] 0)))
                      (Spec.upload_sequence [x0a; x0b] 3 n);
             sp_incoming := [];
             _crc_mode :=
               match
                 Spec.first_of [x43; x15]
                   (sp_incoming (mkWorld [] [x43; x15; x06; x06] None [] 0))
               with
               | Some (m, _) => Some [m]
               | None => _crc_mode (mkWorld [] [x43; x15; x06; x06] None [] 0)
               end;
             _data := [x0a; x0b]; _addr_int := 3 |}
        /\ (1 <= chunks_written (Z.to_nat n)
                   (sp_incoming (mkWorld [] [x43; x15; x06; x06] None [] 0))
             <= Z.to_nat n + 3)%nat)
    /\ (Spec.first_of [x43; x15]
          (sp_incoming (mkWorld [] [x43; x15; x06; x06] None [] 0)) = None ->
        upload_bitstream_to [x0a; x0b] 3
          (mkWorld [] [x43; x15; x06; x06] None [] 0) =
        Blocked
          {| sp_written :=
               sp_written (mkWorld [] [x43; x15; x06; x06] None [] 0)
                 ++ [value START_TRANSMISSION];
             sp_incoming := [];
             _crc_mode := _crc_mode (mkWorld [] [x43; x15; x06; x06] None [] 0);
             _data := [x0a; x0b]; _addr_int := 3 |}).
Proof.
  apply (upload_sequence_with_replies [x0a; x0b] 3
           (mkWorld [] [x43; x15; x06; x06] None [] 0)).
  vm_compute. discriminate.
Defined.









(** X18. An upload of a file shorter than 2^53 bytes that runs to its
    end puts len(file) + 6 * packet_count + 16 bytes on the wire: the
    file itself, 6 bytes of framing per body packet, the 14-byte
    metadata frame and the start and end bytes. *)
Theorem upload_bytes_on_wire
    (contents : bytes) (address : Z) (rx rest : bytes) (m : byte) :
  Py.len contents < 2 ^ 53 ->
  Spec.upload_replies
    (Z.to_nat (Spec.ceil_div (Py.len contents) 256)) rx = Some (m, rest) ->
  Py.len (concat (transport_output contents address rx)) =
  Py.len contents + 6 * Spec.ceil_div (Py.len contents) 256 + 16.
Proof.
  intros Hs Hr.
  assert (H0 : 0 <= Py.len contents) by (unfold Py.len; lia).
  pose proof (calc_exact (Py.len contents) (conj H0 Hs)) as Hn.
  pose proof (ceil_div_256_bounds (Py.len contents) H0) as [B0 B1].
  set (n := Spec.ceil_div (Py.len contents) 256) in *.
  unfold transport_output.
  pose proof (upload_run contents address (mkWorld [] rx None [] 0) n Hn) as R.
  cbn [sp_incoming] in R. rewrite Hr in R. rewrite R.
  cbn [final_world sp_written app]. unfold Spec.upload_sequence.
  unfold Py.len in *.
  rewrite !concat_app, !length_app. cbn [concat]. rewrite !app_nil_r.
  rewrite frames_total_length, wire_layout_length, length_app,
    !big_endian_length.
  rewrite concat_chunks by lia. cbn [length value]. lia.
Qed.

Lemma upload_bytes_on_wire_witness :
  Py.len (concat (transport_output [x0a; x0b] 3 [x43; x06; x15; x06])) =
  Py.len [x0a; x0b] + 6 * Spec.ceil_div (Py.len [x0a; x0b]) 256 + 16.
Proof.
  apply (upload_bytes_on_wire [x0a; x0b] 3 [x43; x06; x15; x06] [] x43);
    vm_compute; reflexivity.
Defined.
